(** * Bid Monitoring Platform: the bid lifecycle and its audit trail

    A shallow embedding of the database-facing core of [app.py]: the three
    tables [bids], [bid_stages] and [bid_history], the stage registry
    [BID_STAGES], the writers [log_bid_history], [update_bid_stage],
    [create_bid] and the two buttons of [manage_bid_process], and the read
    queries of [show_deadline_reminders] and [show_audit_trail].

    Conventions.
    - A table is the list of its rows in rowid order; every table is declared
      [INTEGER PRIMARY KEY AUTOINCREMENT], so the store keeps the last rowid
      handed out next to each table and an INSERT appends.
    - [DATE] and [DATETIME] values are integers (a day number, a time
      stamp).  The application stores them as ISO texts of fixed layout,
      whose text order is the chronological one.
    - Every [datetime.now()] is a separate reading of the clock: an operation
      receives the readings it makes as [now env 0], [now env 1], ...
    - [st.session_state.user[1]] is [session_user env].
    - A selectbox delivers one of its options and nothing else.  A request
      for a value it does not offer cannot be made; the model gives such a
      request an outcome of its own, which writes nothing and which no
      statement about the page relies on. *)

From Stdlib Require Import List ZArith String Bool Lia Permutation Sorted.
From Stdlib Require Import QArith_base.
Import ListNotations.

Local Open Scope string_scope.
Local Open Scope list_scope.
Local Open Scope Z_scope.

(** ** Rows and tables *)

(** A row of [bids].  [reason] is the one column [create_bid] leaves NULL. *)
Record Bid : Type := mkBid {
  b_id : Z;
  b_title : string;
  b_description : string;
  b_status : string;
  b_stage : string;
  b_due_date : Z;
  b_assigned_to : string;
  b_created_by : string;
  b_created_at : Z;
  b_client_name : string;
  b_bid_value : Q;
  b_reason : option string
}.

(** A row of [bid_stages].  [completed_at] is NULL while the stage is open. *)
Record BidStage : Type := mkBidStage {
  bs_id : Z;
  bs_bid_id : Z;
  bs_stage : string;
  bs_stage_owner : string;
  bs_started_at : Z;
  bs_completed_at : option Z;
  bs_notes : string
}.

(** A row of [bid_history]. *)
Record BidHistory : Type := mkBidHistory {
  h_id : Z;
  h_bid_id : Z;
  h_changed_at : Z;
  h_changed_by : string;
  h_field_changed : string;
  h_old_value : string;
  h_new_value : string
}.

(** The database behind [conn].  The tables [users] and [documents] are not
    read or written by any operation below and are left out. *)
Record Store : Type := mkStore {
  bids : list Bid;
  bids_seq : Z;
  bid_stages : list BidStage;
  bid_stages_seq : Z;
  bid_history : list BidHistory;
  bid_history_seq : Z
}.

(** The database right after the [CREATE TABLE IF NOT EXISTS] statements. *)
Definition empty_store : Store := mkStore [] 0 [] 0 [] 0.

Definition set_bids (db : Store) (t : list Bid) : Store :=
  mkStore t (bids_seq db) (bid_stages db) (bid_stages_seq db)
          (bid_history db) (bid_history_seq db).

(** What the session supplies to an operation. *)
Record Env : Type := mkEnv {
  session_user : string;
  now : nat -> Z
}.

(** How an operation ends: it commits a new store, or nothing is written:
    the page shows an error, or the form has no such choice to submit. *)
Inductive UiError : Type :=
| ValidationError          (* "Please fill required fields" *)
| NotFoundError            (* "Bid not found" *)
| StageNotOffered.         (* not an error of the page: the selectbox does
                              not offer the stage, or no stage is left
                              ("All stages completed for this bid") *)

Inductive Outcome (A : Type) : Type :=
| Done (a : A)
| Rejected (e : UiError).

Arguments Done {A} a.
Arguments Rejected {A} e.

(** ** SQL in miniature *)

Section Sql.
Context {A : Type}.

(** [UPDATE t SET ... WHERE cond]. *)
Definition sql_update (cond : A -> bool) (set : A -> A) (t : list A) : list A :=
  map (fun r => if cond r then set r else r) t.

(** [SELECT * FROM t WHERE cond], rows in rowid order. *)
Definition sql_select (cond : A -> bool) (t : list A) : list A :=
  filter cond t.

(** [ORDER BY]: a stable insertion sort under the comparison [before]. *)
Fixpoint insert_by (before : A -> A -> bool) (x : A) (l : list A) : list A :=
  match l with
  | [] => [x]
  | y :: l' => if before x y then x :: l else y :: insert_by before x l'
  end.

Definition order_by (before : A -> A -> bool) (l : list A) : list A :=
  fold_right (insert_by before) [] l.

Definition asc (key : A -> Z) (x y : A) : bool := key x <=? key y.
Definition desc (key : A -> Z) (x y : A) : bool := key y <=? key x.
End Sql.

(** [h JOIN b ON h.bid_id = b.id], keeping [h.*] and [b.title]. *)
Definition join_bid_title (hs : list BidHistory) (bs : list Bid)
  : list (BidHistory * string) :=
  flat_map (fun h =>
              map (fun b => (h, b_title b))
                  (filter (fun b => h_bid_id h =? b_id b) bs)) hs.

Definition is_null {A : Type} (v : option A) : bool :=
  match v with None => true | Some _ => false end.

(** ** The stage registry *)

(** The dict [BID_STAGES], in the order it is written. *)
Definition BID_STAGES : list (string * string) :=
  [ ("Proposal Drafting", "Proposal Manager");
    ("Legal Review", "Legal Team");
    ("Pricing Review", "Finance Team");
    ("Submission", "Sales Lead");
    ("Evaluation", "Client");
    ("Awarded", "Account Manager");
    ("Lost", "Sales Lead") ].

(** [d.get(key, default)]. *)
Fixpoint dict_get (d : list (string * string)) (key default : string) : string :=
  match d with
  | [] => default
  | (k, v) :: d' => if String.eqb k key then v else dict_get d' key default
  end.

(** [BID_STAGES.keys()]. *)
Definition BID_STAGES_keys : list string := map fst BID_STAGES.

(** [BID_STAGES.get(stage, "Unassigned")], as both uses in
    [update_bid_stage] spell it. *)
Definition stage_owner_for (stage_name : string) : string :=
  dict_get BID_STAGES stage_name "Unassigned".

(** ** Writers *)

(** [log_bid_history(bid_id, field_changed, old_value, new_value)]; the
    values logged here are texts already, so [str] leaves them as they are. *)
Definition log_bid_history (db : Store) (user : string) (changed_at : Z)
           (bid_id : Z) (field_changed old_value new_value : string) : Store :=
  let rowid := bid_history_seq db + 1 in
  mkStore (bids db) (bids_seq db) (bid_stages db) (bid_stages_seq db)
          (bid_history db ++
             [mkBidHistory rowid bid_id changed_at user
                           field_changed old_value new_value])
          rowid.

Definition open_stage_of (bid_id : Z) (r : BidStage) : bool :=
  (bs_bid_id r =? bid_id) && is_null (bs_completed_at r).

Definition complete_stage (completed_at : Z) (r : BidStage) : BidStage :=
  mkBidStage (bs_id r) (bs_bid_id r) (bs_stage r) (bs_stage_owner r)
             (bs_started_at r) (Some completed_at) (bs_notes r).

(** [update_bid_stage(bid_id, new_stage, notes)]: the UPDATE reads the clock
    once ([now1]), the INSERT once more ([now2]). *)
Definition update_bid_stage (db : Store) (now1 now2 : Z)
           (bid_id : Z) (new_stage notes : string) : Store :=
  let completed :=
    sql_update (open_stage_of bid_id) (complete_stage now1) (bid_stages db) in
  let rowid := bid_stages_seq db + 1 in
  mkStore (bids db) (bids_seq db)
          (completed ++
             [mkBidStage rowid bid_id new_stage (stage_owner_for new_stage)
                         now2 None notes])
          rowid
          (bid_history db) (bid_history_seq db).

(** The sidebar message [update_bid_stage] ends with. *)
Definition stage_notification (new_stage : string) : string :=
  String.append "Notification: Bid moved to "
    (String.append new_stage
       (String.append " stage. Owner: " (stage_owner_for new_stage))).

Definition is_empty (s : string) : bool := String.eqb s "".

(** The submit branch of [create_bid]. *)
Definition create_bid (db : Store) (env : Env)
           (title description client_name : string) (bid_value : Q)
           (due_date : Z) (assigned_to : string) : Outcome Store :=
  if is_empty title || is_empty client_name || is_empty assigned_to
  then Rejected ValidationError
  else
    let bid_id := bids_seq db + 1 in
    let inserted :=
      mkStore (bids db ++
                 [mkBid bid_id title description "Open" "Proposal Drafting"
                        due_date assigned_to (session_user env) (now env 0)
                        client_name bid_value None])
              bid_id
              (bid_stages db) (bid_stages_seq db)
              (bid_history db) (bid_history_seq db) in
    Done (update_bid_stage inserted (now env 1) (now env 2)
                           bid_id "Proposal Drafting" "Bid created").

(** [SELECT * FROM bids WHERE id=?]. *)
Definition bid_by_id (db : Store) (bid_id : Z) : list Bid :=
  sql_select (fun b => b_id b =? bid_id) (bids db).

(** The reason the status form holds: the second selectbox exists only
    when the first one says "Lost". *)
Definition status_reason (new_status selected_reason : string) : string :=
  if String.eqb new_status "Lost" then selected_reason else "".

Definition set_status_reason (new_status reason : string) (b : Bid) : Bid :=
  mkBid (b_id b) (b_title b) (b_description b) new_status (b_stage b)
        (b_due_date b) (b_assigned_to b) (b_created_by b) (b_created_at b)
        (b_client_name b) (b_bid_value b) (Some reason).

Definition set_stage (new_stage : string) (b : Bid) : Bid :=
  mkBid (b_id b) (b_title b) (b_description b) (b_status b) new_stage
        (b_due_date b) (b_assigned_to b) (b_created_by b) (b_created_at b)
        (b_client_name b) (b_bid_value b) (b_reason b).

(** [manage_bid_process], the "Update Status" button. *)
Definition manage_bid_process_update_status (db : Store) (env : Env)
           (bid_id : Z) (new_status selected_reason : string) : Outcome Store :=
  match bid_by_id db bid_id with
  | [] => Rejected NotFoundError
  | bid :: _ =>
      let reason := status_reason new_status selected_reason in
      let old_status := b_status bid in
      let updated :=
        set_bids db (sql_update (fun b => b_id b =? bid_id)
                                (set_status_reason new_status reason)
                                (bids db)) in
      let logged :=
        log_bid_history updated (session_user env) (now env 0)
                        bid_id "status" old_status new_status in
      if String.eqb new_status "Won" then
        Done (update_bid_stage logged (now env 1) (now env 2)
                               bid_id "Awarded" "Bid won!")
      else if String.eqb new_status "Lost" then
        Done (update_bid_stage logged (now env 1) (now env 2)
                               bid_id "Lost" (String.append "Bid lost: " reason))
      else Done logged
  end.

(** [SELECT * FROM bid_stages WHERE bid_id=? ORDER BY started_at]. *)
Definition stages_of (db : Store) (bid_id : Z) : list BidStage :=
  order_by (asc bs_started_at)
           (sql_select (fun r => bs_bid_id r =? bid_id) (bid_stages db)).

Definition completed_stages (db : Store) (bid_id : Z) : list string :=
  map bs_stage (stages_of db bid_id).

Definition string_in (s : string) (l : list string) : bool :=
  existsb (String.eqb s) l.

(** [[s for s in BID_STAGES.keys() if s not in completed_stages]]. *)
Definition available_stages (db : Store) (bid_id : Z) : list string :=
  filter (fun s => negb (string_in s (completed_stages db bid_id)))
         BID_STAGES_keys.

(** [manage_bid_process], the "Transition Stage" button.  [new_stage] is
    the value the selectbox "Move to Stage" delivers, which is one of
    [available_stages]; the form is not drawn when that list is empty.  The
    page itself checks nothing and has no error here: the last branch stands
    for requests that cannot be submitted. *)
Definition manage_bid_process_transition_stage (db : Store) (env : Env)
           (bid_id : Z) (new_stage notes : string) : Outcome Store :=
  match bid_by_id db bid_id with
  | [] => Rejected NotFoundError
  | _ :: _ =>
      if string_in new_stage (available_stages db bid_id) then
        let moved :=
          update_bid_stage db (now env 0) (now env 1) bid_id new_stage notes in
        Done (set_bids moved
                (sql_update (fun b => b_id b =? bid_id) (set_stage new_stage)
                            (bids moved)))
      else Rejected StageNotOffered
  end.

(** ** Readers *)

(** The query of [show_deadline_reminders]:
    [SELECT id, title, due_date FROM bids WHERE due_date <= ? AND status = 'Open']
    with the parameter [today + timedelta(days=3)]. *)
Definition show_deadline_reminders (db : Store) (today : Z)
  : list (Z * string * Z) :=
  map (fun b => (b_id b, b_title b, b_due_date b))
      (sql_select (fun b => (b_due_date b <=? today + 3)
                            && String.eqb (b_status b) "Open")
                  (bids db)).

(** The two queries of [show_audit_trail]. *)
Definition show_audit_trail_history (db : Store) (bid_id : Z) : list BidHistory :=
  order_by (desc h_changed_at)
           (sql_select (fun h => h_bid_id h =? bid_id) (bid_history db)).

Definition show_audit_trail_recent (db : Store) : list (BidHistory * string) :=
  firstn 50
    (order_by (desc (fun r : BidHistory * string => h_changed_at (fst r)))
              (join_bid_title (bid_history db) (bids db))).

(** ** Sessions: sequences of user actions *)

Inductive Action : Type :=
| CreateBid (env : Env) (title description client_name : string)
            (bid_value : Q) (due_date : Z) (assigned_to : string)
| UpdateStatus (env : Env) (bid_id : Z) (new_status selected_reason : string)
| TransitionStage (env : Env) (bid_id : Z) (new_stage notes : string).

Definition perform (db : Store) (a : Action) : Outcome Store :=
  match a with
  | CreateBid env title description client_name bid_value due_date assigned_to =>
      create_bid db env title description client_name bid_value due_date
                 assigned_to
  | UpdateStatus env bid_id new_status selected_reason =>
      manage_bid_process_update_status db env bid_id new_status selected_reason
  | TransitionStage env bid_id new_stage notes =>
      manage_bid_process_transition_stage db env bid_id new_stage notes
  end.

(** A rejected action leaves the database as it was. *)
Definition step (db : Store) (a : Action) : Store :=
  match perform db a with
  | Done db' => db'
  | Rejected _ => db
  end.

Definition run (db : Store) (actions : list Action) : Store :=
  fold_left step actions db.

(** ** Properties of a store *)

(** The number of open stage rows of a bid. *)
Definition open_count (db : Store) (bid_id : Z) : nat :=
  List.length (filter (open_stage_of bid_id) (bid_stages db)).

Definition single_open (db : Store) : Prop :=
  forall bid_id, (open_count db bid_id <= 1)%nat.

(** Referential shape of the tables: bid ids grow along the table and were
    handed out by the sequence; stage and history rows point at bids. *)
Record store_wf (db : Store) : Prop := mkStoreWf {
  wf_ids_sorted : StronglySorted Z.lt (map b_id (bids db));
  wf_ids_seq : Forall (fun b => b_id b <= bids_seq db) (bids db);
  wf_stages_ref : Forall (fun r => In (bs_bid_id r) (map b_id (bids db)))
                         (bid_stages db);
  wf_history_ref : Forall (fun h => In (h_bid_id h) (map b_id (bids db)))
                          (bid_history db)
}.

(** Two rows of [bids] that differ at most in [status] and [reason]. *)
Definition same_but_status_reason (b b' : Bid) : Prop :=
  b_id b' = b_id b /\ b_title b' = b_title b /\
  b_description b' = b_description b /\ b_stage b' = b_stage b /\
  b_due_date b' = b_due_date b /\ b_assigned_to b' = b_assigned_to b /\
  b_created_by b' = b_created_by b /\ b_created_at b' = b_created_at b /\
  b_client_name b' = b_client_name b /\ b_bid_value b' = b_bid_value b.

(** The stage row [update_bid_stage] inserts. *)
Definition new_stage_row (db : Store) (started_at : Z) (bid_id : Z)
           (new_stage notes : string) : BidStage :=
  mkBidStage (bid_stages_seq db + 1) bid_id new_stage
             (stage_owner_for new_stage) started_at None notes.

(** [db'] has the stage table of [db] with the open stages of [bid_id]
    completed at [closed_at] and [row] appended as the only open one. *)
Definition opens_stage (db db' : Store) (bid_id closed_at : Z)
           (row : BidStage) : Prop :=
  bid_stages db'
  = sql_update (open_stage_of bid_id) (complete_stage closed_at)
               (bid_stages db) ++ [row] /\
  filter (open_stage_of bid_id) (bid_stages db') = [row] /\
  (forall r, In r (bid_stages db) -> open_stage_of bid_id r = true ->
             In (complete_stage closed_at r) (bid_stages db')).

(** ** Sample sessions *)

(** A session of user "admin" whose clock reads [t], [t+1], ... *)
Definition session_at (t : Z) : Env :=
  mkEnv "admin" (fun k => t + Z.of_nat k).

Definition no_value : Q := Qmake 0 1.

(** One bid, as the "New Bid Creation" form would submit it. *)
Definition acme_created : Store :=
  run empty_store
      [CreateBid (session_at 100) "Acme Deal" "" "Acme Corp" no_value 10 "Jane"].

(** The row of [bids] that the form leaves behind. *)
Definition acme_bid : Bid :=
  mkBid 1 "Acme Deal" "" "Open" "Proposal Drafting" 10 "Jane" "admin" 100
        "Acme Corp" no_value None.

(** The same bid, then marked "Lost" for its price. *)
Definition acme_lost : Store :=
  run acme_created [UpdateStatus (session_at 200) 1 "Lost" "Pricing too high"].

(** The same bid, then marked "Won". *)
Definition acme_won : Store :=
  run acme_created [UpdateStatus (session_at 200) 1 "Won" ""].

(** The same bid, then moved to "Legal Review". *)
Definition acme_in_legal : Store :=
  run acme_created [TransitionStage (session_at 200) 1 "Legal Review" "ready"].

(** Two open bids, the later one due first, and a won bid due in between. *)
Definition three_bids : Store :=
  run empty_store
      [CreateBid (session_at 100) "Late" "" "Acme Corp" no_value 5 "Jane";
       CreateBid (session_at 200) "Early" "" "Bolt Ltd" no_value 2 "Joe";
       CreateBid (session_at 300) "Closed" "" "Cog Inc" no_value 3 "Jim";
       UpdateStatus (session_at 400) 3 "Won" ""].

(** Two bids and three status changes, the middle one on the second bid. *)
Definition audit_sample : Store :=
  run empty_store
      [CreateBid (session_at 100) "Acme Deal" "" "Acme Corp" no_value 10 "Jane";
       CreateBid (session_at 200) "Bolt Deal" "" "Bolt Ltd" no_value 20 "Joe";
       UpdateStatus (session_at 300) 1 "Submitted" "";
       UpdateStatus (session_at 400) 2 "Won" "";
       UpdateStatus (session_at 500) 1 "Open" ""].

(** A store as no session leaves it: two stages of bid 7 open at once. *)
Definition two_open : Store :=
  mkStore [] 0
          [mkBidStage 1 7 "Legal Review" "Legal Team" 10 None "";
           mkBidStage 2 7 "Pricing Review" "Finance Team" 11 None "";
           mkBidStage 3 8 "Submission" "Sales Lead" 12 None ""]
          3 [] 0.

(** ** More readers, and what sessions keep *)

(** [bs JOIN b ON bs.bid_id = b.id], both rows kept. *)
Definition join_stage_bid (rows : list BidStage) (bs : list Bid)
  : list (BidStage * Bid) :=
  flat_map (fun r =>
              map (fun b => (r, b))
                  (filter (fun b => bs_bid_id r =? b_id b) bs)) rows.

(** The query of [show_stage_notifications]:
    [SELECT bs.bid_id, b.title, bs.stage, bs.stage_owner
     FROM bid_stages bs JOIN bids b ON bs.bid_id = b.id
     WHERE bs.completed_at IS NULL]. *)
Definition show_stage_notifications (db : Store)
  : list (Z * string * string * string) :=
  map (fun row => (bs_bid_id (fst row), b_title (snd row),
                   bs_stage (fst row), bs_stage_owner (fst row)))
      (sql_select (fun row => is_null (bs_completed_at (fst row)))
                  (join_stage_bid (bid_stages db) (bids db))).

(** The bid an action works on; a creation works on the next bid id. *)
Definition action_target (db : Store) (a : Action) : Z :=
  match a with
  | CreateBid _ _ _ _ _ _ _ => bids_seq db + 1
  | UpdateStatus _ bid_id _ _ => bid_id
  | TransitionStage _ bid_id _ _ => bid_id
  end.

(** The stage rows of a bid, in table order, and those for one stage. *)
Definition stage_rows_of (db : Store) (bid_id : Z) : list BidStage :=
  sql_select (fun r => bs_bid_id r =? bid_id) (bid_stages db).

Definition stage_rows_named (db : Store) (bid_id : Z) (stage_name : string)
  : list BidStage :=
  filter (fun r => String.eqb (bs_stage r) stage_name) (stage_rows_of db bid_id).

(** The ledger rows of a bid, in table order. *)
Definition ledger_of (db : Store) (bid_id : Z) : list BidHistory :=
  sql_select (fun h => h_bid_id h =? bid_id) (bid_history db).

(** Following a ledger from a starting status: every row must start from
    the status the previous one left. *)
Fixpoint replay_status (current : string) (rows : list BidHistory)
  : option string :=
  match rows with
  | [] => Some current
  | h :: rows' =>
      if String.eqb (h_old_value h) current
      then replay_status (h_new_value h) rows'
      else None
  end.

(** The status of every bid is what its ledger rows add up to. *)
Definition ledger_consistent (db : Store) : Prop :=
  forall b, In b (bids db) ->
            replay_status "Open" (ledger_of db (b_id b)) = Some (b_status b).

(** Every bid of the table has exactly one open stage row. *)
Definition every_bid_open (db : Store) : Prop :=
  forall k, In k (map b_id (bids db)) -> open_count db k = 1%nat.

(** Every stage name stored is a registry key, with the registry's owner. *)
Definition stages_registered (db : Store) : Prop :=
  Forall (fun r => In (bs_stage r) BID_STAGES_keys /\
                   bs_stage_owner r = stage_owner_for (bs_stage r))
         (bid_stages db) /\
  Forall (fun b => In (b_stage b) BID_STAGES_keys) (bids db).

(** A reason is stored with the status "Lost" and, unless empty, only
    with it. *)
Definition reason_matches_status (db : Store) : Prop :=
  Forall (fun b => (b_status b = "Lost" -> b_reason b <> None) /\
                   (b_status b <> "Lost" ->
                    b_reason b = None \/ b_reason b = Some ""))
         (bids db).

(** The columns of a bid that no operation writes after the INSERT. *)
Definition same_core (b b' : Bid) : Prop :=
  b_id b' = b_id b /\ b_title b' = b_title b /\
  b_description b' = b_description b /\ b_due_date b' = b_due_date b /\
  b_assigned_to b' = b_assigned_to b /\ b_created_by b' = b_created_by b /\
  b_created_at b' = b_created_at b /\ b_client_name b' = b_client_name b /\
  b_bid_value b' = b_bid_value b.

(** A stage row and what it may become: the same row, completed at most
    once. *)
Definition stage_row_kept (r r' : BidStage) : Prop :=
  bs_id r' = bs_id r /\ bs_bid_id r' = bs_bid_id r /\
  bs_stage r' = bs_stage r /\ bs_stage_owner r' = bs_stage_owner r /\
  bs_started_at r' = bs_started_at r /\ bs_notes r' = bs_notes r /\
  (bs_completed_at r <> None -> r' = r).

(** ** Users, documents and the schema *)

(** A row of [users]; [username] is declared UNIQUE. *)
Record User : Type := mkUser {
  u_id : Z;
  u_username : string;
  u_role : string
}.

Record UsersTable : Type := mkUsersTable {
  users : list User;
  users_seq : Z
}.

(** A row of [documents]. *)
Record Document : Type := mkDocument {
  d_id : Z;
  d_bid_id : Z;
  d_document_name : string;
  d_sharepoint_url : string;
  d_uploaded_at : Z
}.

Record DocumentsTable : Type := mkDocumentsTable {
  documents : list Document;
  documents_seq : Z
}.

Definition insert_user (t : UsersTable) (username role : string) : UsersTable :=
  mkUsersTable (users t ++ [mkUser (users_seq t + 1) username role])
               (users_seq t + 1).

(** "Insert default admin user if empty": the script counts the rows of
    [users] and inserts ("admin", "admin") when there is none. *)
Definition insert_default_admin (t : UsersTable) : UsersTable :=
  if Nat.eqb (List.length (users t)) 0
  then insert_user t "admin" "admin"
  else t.

Inductive UserAdminError : Type :=
| UnauthorizedAccess       (* "Unauthorized Access" *)
| UsernameAlreadyExists.   (* sqlite3.IntegrityError on the UNIQUE column *)

Inductive UserAdminOutcome : Type :=
| UserAdded (t : UsersTable)
| UserRefused (e : UserAdminError).

Definition username_taken (t : UsersTable) (username : string) : bool :=
  existsb (fun u => String.eqb (u_username u) username) (users t).

(** [user_admin], the "Add User" form, for a session of role [user_role]. *)
Definition user_admin (t : UsersTable) (user_role username role : string)
  : UserAdminOutcome :=
  if negb (String.eqb user_role "admin") then UserRefused UnauthorizedAccess
  else if username_taken t username then UserRefused UsernameAlreadyExists
  else UserAdded (insert_user t username role).

(** [upload_to_sharepoint(uploaded_file, bid_id)]: the file is known by its
    name; the function records it and answers True. *)
Definition upload_to_sharepoint (t : DocumentsTable) (uploaded_at : Z)
           (document_name : string) (bid_id : Z) : DocumentsTable * bool :=
  let sharepoint_url :=
    String.append "https://sharepoint.example.com/" document_name in
  (mkDocumentsTable
     (documents t ++
        [mkDocument (documents_seq t + 1) bid_id document_name sharepoint_url
                    uploaded_at])
     (documents_seq t + 1),
   true).

(** [SELECT * FROM documents WHERE bid_id=?]. *)
Definition documents_of (t : DocumentsTable) (bid_id : Z) : list Document :=
  sql_select (fun d => d_bid_id d =? bid_id) (documents t).

(** [document_manager]: the page checks the bid, records the file the
    uploader holds, if any, and lists the documents of the bid. *)
Definition document_manager (db : Store) (t : DocumentsTable)
           (uploaded_at : Z) (bid_id : Z) (uploaded_file : option string)
  : Outcome (DocumentsTable * list Document) :=
  match bid_by_id db bid_id with
  | [] => Rejected NotFoundError
  | _ :: _ =>
      let t' :=
        match uploaded_file with
        | Some document_name =>
            fst (upload_to_sharepoint t uploaded_at document_name bid_id)
        | None => t
        end in
      Done (t', documents_of t' bid_id)
  end.

(** SQLite compares column names without regard to the case of the ASCII
    letters. *)
Definition ascii_lower (c : Ascii.ascii) : Ascii.ascii :=
  let n := Ascii.nat_of_ascii c in
  if ((65 <=? n) && (n <=? 90))%nat then Ascii.ascii_of_nat (n + 32) else c.

Fixpoint string_lower (s : string) : string :=
  match s with
  | EmptyString => EmptyString
  | String c s' => String (ascii_lower c) (string_lower s')
  end.

Definition same_column (a b : string) : bool :=
  String.eqb (string_lower a) (string_lower b).

Definition has_column (schema : list string) (column : string) : bool :=
  existsb (same_column column) schema.

(** The columns [update_database_schema] looks for, in its order. *)
Definition new_columns : list string :=
  ["client_name"; "bid_value"; "reason"; "stage"].

(** How [update_database_schema] ends: it returns, or an ALTER TABLE raises
    [sqlite3.OperationalError]; either way with the columns the table then
    has (an ALTER TABLE that went through is not undone). *)
Inductive SchemaOutcome : Type :=
| SchemaUpdated (schema : list string)
| OperationalError (schema : list string).

Section Schema.
(** The most columns SQLite allows in a table (SQLITE_LIMIT_COLUMN). *)
Variable max_columns : nat.

(** [ALTER TABLE bids ADD COLUMN column]: refused when the table is full
    ("too many columns") or has a column of that name, whatever the case of
    its letters ("duplicate column name"). *)
Definition alter_table_add_column (schema : list string) (column : string)
  : option (list string) :=
  if (max_columns <=? List.length schema)%nat || has_column schema column
  then None
  else Some (schema ++ [column]).

(** The four [if ... not in columns: ALTER TABLE] statements: [columns] are
    the names read once at the start and compared as Python compares
    strings, [schema] the columns of the table as the statements run. *)
Fixpoint add_missing_columns (columns to_add schema : list string)
  : SchemaOutcome :=
  match to_add with
  | [] => SchemaUpdated schema
  | column :: rest =>
      if string_in column columns
      then add_missing_columns columns rest schema
      else match alter_table_add_column schema column with
           | Some schema' => add_missing_columns columns rest schema'
           | None => OperationalError schema
           end
  end.

(** [update_database_schema], on the column names that
    [PRAGMA table_info(bids)] reports. *)
Definition update_database_schema (schema : list string) : SchemaOutcome :=
  let columns := schema in
  add_missing_columns columns new_columns schema.
End Schema.

(** The columns of [new_columns] that a schema lacks, by exact name. *)
Definition missing_columns (schema : list string) : list string :=
  filter (fun c => negb (string_in c schema)) new_columns.

(** A schema has a column that differs from one of [new_columns] only by
    the case of its letters. *)
Definition case_clash (schema : list string) : bool :=
  existsb (fun c => negb (string_in c schema) && has_column schema c)
          new_columns.

(** The columns of [bids] as [CREATE TABLE] lists them. *)
Definition bids_columns : list string :=
  ["id"; "title"; "description"; "status"; "stage"; "due_date";
   "assigned_to"; "created_by"; "created_at"; "client_name"; "bid_value";
   "reason"].

(** ** The whole application *)

Record App : Type := mkApp {
  app_store : Store;
  app_users : UsersTable;
  app_documents : DocumentsTable
}.

(** The database files right after they are created. *)
Definition fresh_app : App :=
  mkApp empty_store (mkUsersTable [] 0) (mkDocumentsTable [] 0).

(** What a user can ask of a page in one run of the script. *)
Inductive Request : Type :=
| BidRequest (a : Action)
| DocumentRequest (uploaded_at bid_id : Z) (uploaded_file : option string)
| UserRequest (username role : string)
| ViewRequest (choice : string).

(** The menu entry a request is made from. *)
Definition request_page (r : Request) : string :=
  match r with
  | BidRequest (CreateBid _ _ _ _ _ _ _) => "Create Bid"
  | BidRequest _ => "Bid Process"
  | DocumentRequest _ _ _ => "Document Manager"
  | UserRequest _ _ => "User Admin"
  | ViewRequest choice => choice
  end.

(** [menu_items] of [show_main_interface]. *)
Definition menu_items (user_role : string) : list string :=
  ["Dashboard"; "Bid Status Summary"; "Create Bid"; "Document Manager";
   "Bid Process"]
    ++ (if String.eqb user_role "admin"
        then ["User Admin"; "Audit Trail"] else []).

(** [show_main_interface]: the radio offers [menu_items] only, and the
    choice selects the page that runs. *)
Definition show_main_interface (app : App) (user_role : string)
           (r : Request) : App :=
  if string_in (request_page r) (menu_items user_role) then
    match r with
    | BidRequest a =>
        mkApp (step (app_store app) a) (app_users app) (app_documents app)
    | DocumentRequest uploaded_at bid_id uploaded_file =>
        match document_manager (app_store app) (app_documents app)
                               uploaded_at bid_id uploaded_file with
        | Done (t', _) => mkApp (app_store app) (app_users app) t'
        | Rejected _ => app
        end
    | UserRequest username role =>
        match user_admin (app_users app) user_role username role with
        | UserAdded t' => mkApp (app_store app) t' (app_documents app)
        | UserRefused _ => app
        end
    | ViewRequest _ => app
    end
  else app.

(** One run of the script: the start-up code, then [main], which gives a
    session without a user the user ("test_id", "admin", "admin"). *)
Definition main (app : App) (session_user : option (string * string * string))
           (r : Request) : App :=
  let started :=
    mkApp (app_store app) (insert_default_admin (app_users app))
          (app_documents app) in
  let user :=
    match session_user with
    | Some u => u
    | None => ("test_id", "admin", "admin")
    end in
  show_main_interface started (snd user) r.

(** A sequence of runs, each with the session it belongs to. *)
Definition run_app (app : App)
           (runs : list (option (string * string * string) * Request)) : App :=
  fold_left (fun app sr => main app (fst sr) (snd sr)) runs app.

(** Usernames are distinct. *)
Definition usernames_unique (t : UsersTable) : Prop :=
  NoDup (map u_username (users t)).

(** Every document belongs to a bid of the table. *)
Definition documents_reference_bids (app : App) : Prop :=
  Forall (fun d => In (d_bid_id d) (map b_id (bids (app_store app))))
         (documents (app_documents app)).

(** ** The dashboard *)

Section Dashboard.
(** SQLite's [value LIKE pattern], which the page leaves to the database. *)
Variable sql_like : string -> string -> bool.

(** The WHERE clause [show_dashboard] builds: a condition per filter that
    is filled in, joined by AND; none when no filter is. *)
Definition dashboard_where (status_filter : list string)
           (assigned_filter : string) (b : Bid) : bool :=
  match status_filter with
  | [] => true
  | _ :: _ => string_in (b_status b) status_filter
  end
  && (if is_empty assigned_filter then true
      else sql_like (b_assigned_to b)
                    (String.append "%" (String.append assigned_filter "%"))).

(** The bids the dashboard lists. *)
Definition show_dashboard (db : Store) (status_filter : list string)
           (assigned_filter : string) : list Bid :=
  sql_select (dashboard_where status_filter assigned_filter) (bids db).
End Dashboard.

(** The counts behind the metrics "Active Bids" and "Win Rate". *)
Definition active_count (listed : list Bid) : nat :=
  List.length (filter (fun b => String.eqb (b_status b) "Open") listed).

Definition won_bids (listed : list Bid) : nat :=
  List.length (filter (fun b => String.eqb (b_status b) "Won") listed).

Definition total_outcomes (listed : list Bid) : nat :=
  List.length (filter (fun b => string_in (b_status b) ["Won"; "Lost"]) listed).

(** * Proofs *)

(** ** [ORDER BY] sorts and keeps every row *)

Section OrderBy.
Context {A : Type}.
Variable before : A -> A -> bool.

Lemma insert_by_perm (x : A) (l : list A) :
  Permutation (insert_by before x l) (x :: l).
Proof.
  induction l as [|y l IH]; simpl.
  - apply Permutation_refl.
  - destruct (before x y).
    + apply Permutation_refl.
    + eapply Permutation_trans; [apply perm_skip, IH | apply perm_swap].
Qed.

Lemma order_by_perm (l : list A) : Permutation (order_by before l) l.
Proof.
  induction l as [|x l IH]; simpl.
  - apply perm_nil.
  - eapply Permutation_trans; [apply insert_by_perm | apply perm_skip, IH].
Qed.

Lemma order_by_length (l : list A) :
  List.length (order_by before l) = List.length l.
Proof. apply Permutation_length, order_by_perm. Qed.

Lemma order_by_In (x : A) (l : list A) : In x (order_by before l) <-> In x l.
Proof.
  split; apply Permutation_in;
    [apply order_by_perm | apply Permutation_sym, order_by_perm].
Qed.

Hypothesis before_total : forall x y, before x y = false -> before y x = true.
Hypothesis before_trans :
  forall x y z, before x y = true -> before y z = true -> before x z = true.

Let R (x y : A) : Prop := before x y = true.

Lemma insert_by_sorted (x : A) (l : list A) :
  StronglySorted R l -> StronglySorted R (insert_by before x l).
Proof.
  induction 1 as [|y l Hs IH Hy]; simpl.
  - constructor; constructor.
  - destruct (before x y) eqn:E.
    + constructor.
      * constructor; assumption.
      * constructor; [exact E|].
        rewrite Forall_forall in Hy |- *.
        intros z Hz. eapply before_trans; [exact E | apply Hy, Hz].
    + constructor; [exact IH|].
      rewrite Forall_forall in Hy |- *.
      intros z Hz.
      apply (Permutation_in _ (insert_by_perm x l)) in Hz.
      destruct Hz as [<-|Hz]; [apply before_total, E | apply Hy, Hz].
Qed.

Lemma order_by_sorted (l : list A) : StronglySorted R (order_by before l).
Proof.
  induction l as [|x l IH]; simpl.
  - constructor.
  - apply insert_by_sorted, IH.
Qed.
End OrderBy.

Lemma order_by_desc_sorted {A : Type} (key : A -> Z) (l : list A) :
  StronglySorted (fun x y => key y <= key x) (order_by (desc key) l).
Proof.
  assert (H : StronglySorted (fun x y => desc key x y = true)
                             (order_by (desc key) l)).
  { apply order_by_sorted; unfold desc; intros; lia. }
  induction H as [|x l' Hs IH Hx]; constructor; [exact IH|].
  eapply Forall_impl; [|exact Hx].
  intros y Hy; unfold desc in Hy; lia.
Qed.

Lemma order_by_asc_sorted {A : Type} (key : A -> Z) (l : list A) :
  StronglySorted (fun x y => key x <= key y) (order_by (asc key) l).
Proof.
  assert (H : StronglySorted (fun x y => asc key x y = true)
                             (order_by (asc key) l)).
  { apply order_by_sorted; unfold asc; intros; lia. }
  induction H as [|x l' Hs IH Hx]; constructor; [exact IH|].
  eapply Forall_impl; [|exact Hx].
  intros y Hy; unfold asc in Hy; lia.
Qed.

(** A row cut off by [LIMIT] is no more recent than any row kept. *)
Lemma sorted_firstn_dominates {A : Type} (R : A -> A -> Prop) (n : nat)
      (l : list A) :
  StronglySorted R l ->
  forall x y, In x (firstn n l) -> In y (skipn n l) -> R x y.
Proof.
  intros Hs; revert n.
  induction Hs as [|a l Hs IH Ha]; intros n x y Hx Hy.
  - rewrite firstn_nil in Hx; contradiction.
  - destruct n as [|n]; simpl in Hx, Hy; [contradiction|].
    destruct Hx as [<-|Hx].
    + rewrite Forall_forall in Ha; apply Ha.
      rewrite <- (firstn_skipn n l); apply in_or_app; right; exact Hy.
    + eapply IH; eassumption.
Qed.

(** ** The stage registry *)

Lemma string_in_In (s : string) (l : list string) :
  string_in s l = true <-> In s l.
Proof.
  unfold string_in; rewrite existsb_exists; split.
  - intros [x [Hx E]]; apply String.eqb_eq in E; subst; exact Hx.
  - intros H; exists s; split; [exact H | apply String.eqb_refl].
Qed.

Lemma dict_get_missing (d : list (string * string)) (key default : string) :
  ~ In key (map fst d) -> dict_get d key default = default.
Proof.
  induction d as [|[k v] d IH]; simpl; intros H; [reflexivity|].
  destruct (String.eqb_spec k key) as [E|E].
  - exfalso; apply H; left; exact E.
  - apply IH; intros Hin; apply H; right; exact Hin.
Qed.

(** ** [update_bid_stage] and the open stage of a bid *)

Lemma update_bid_stage_bids db now1 now2 bid_id new_stage notes :
  bids (update_bid_stage db now1 now2 bid_id new_stage notes) = bids db.
Proof. reflexivity. Qed.

Lemma update_bid_stage_history db now1 now2 bid_id new_stage notes :
  bid_history (update_bid_stage db now1 now2 bid_id new_stage notes)
  = bid_history db.
Proof. reflexivity. Qed.

Lemma open_stage_of_complete (b : Z) (t : Z) (r : BidStage) :
  open_stage_of b (complete_stage t r) = false.
Proof. unfold open_stage_of; simpl; apply andb_false_r. Qed.

Lemma completed_none_open (bid_id t : Z) (rows : list BidStage) :
  filter (open_stage_of bid_id)
         (sql_update (open_stage_of bid_id) (complete_stage t) rows) = [].
Proof.
  induction rows as [|r rows IH]; simpl; [reflexivity|].
  destruct (open_stage_of bid_id r) eqn:E.
  - rewrite open_stage_of_complete; exact IH.
  - rewrite E; exact IH.
Qed.

Lemma completed_other_bid (b bid_id t : Z) (rows : list BidStage) :
  b <> bid_id ->
  filter (open_stage_of b)
         (sql_update (open_stage_of bid_id) (complete_stage t) rows)
  = filter (open_stage_of b) rows.
Proof.
  intros Hne.
  induction rows as [|r rows IH]; simpl; [reflexivity|].
  destruct (open_stage_of bid_id r) eqn:E.
  - rewrite open_stage_of_complete.
    assert (Hb : open_stage_of b r = false).
    { unfold open_stage_of in *.
      apply andb_true_iff in E; destruct E as [E _].
      apply Z.eqb_eq in E.
      destruct (Z.eqb_spec (bs_bid_id r) b); [lia | reflexivity]. }
    rewrite Hb; exact IH.
  - destruct (open_stage_of b r); [f_equal|]; exact IH.
Qed.

Lemma open_count_update_same db now1 now2 bid_id new_stage notes :
  open_count (update_bid_stage db now1 now2 bid_id new_stage notes) bid_id
  = 1%nat.
Proof.
  unfold open_count, update_bid_stage; simpl.
  rewrite filter_app, completed_none_open; simpl.
  unfold open_stage_of; simpl; rewrite Z.eqb_refl; reflexivity.
Qed.

Lemma open_count_update_other db now1 now2 bid_id new_stage notes b :
  b <> bid_id ->
  open_count (update_bid_stage db now1 now2 bid_id new_stage notes) b
  = open_count db b.
Proof.
  intros Hne; unfold open_count, update_bid_stage; simpl.
  rewrite filter_app, completed_other_bid by exact Hne; simpl.
  unfold open_stage_of at 2; simpl.
  destruct (Z.eqb_spec bid_id b); [lia|]; simpl.
  rewrite app_nil_r; reflexivity.
Qed.

Lemma update_bid_stage_single_open db now1 now2 bid_id new_stage notes :
  single_open db ->
  single_open (update_bid_stage db now1 now2 bid_id new_stage notes).
Proof.
  intros H b.
  destruct (Z.eq_dec b bid_id) as [->|Hne].
  - rewrite open_count_update_same; lia.
  - rewrite open_count_update_other by exact Hne; apply H.
Qed.

(** ** Each action keeps at most one stage open per bid *)

Lemma single_open_ext (db1 db2 : Store) :
  bid_stages db1 = bid_stages db2 -> single_open db1 -> single_open db2.
Proof.
  intros E H b; specialize (H b); unfold open_count in *.
  rewrite <- E; exact H.
Qed.

Lemma perform_single_open (db db' : Store) (a : Action) :
  single_open db -> perform db a = Done db' -> single_open db'.
Proof.
  intros H; destruct a; simpl.
  - unfold create_bid.
    destruct (is_empty title || is_empty client_name || is_empty assigned_to);
      [discriminate|].
    intros E; injection E as <-.
    apply update_bid_stage_single_open.
    eapply single_open_ext; [|exact H]; reflexivity.
  - unfold manage_bid_process_update_status.
    destruct (bid_by_id db bid_id) as [|bid rest]; [discriminate|].
    destruct (String.eqb new_status "Won");
      [|destruct (String.eqb new_status "Lost")];
      intros E; injection E as <-;
      try apply update_bid_stage_single_open;
      (eapply single_open_ext; [|exact H]; reflexivity).
  - unfold manage_bid_process_transition_stage.
    destruct (bid_by_id db bid_id) as [|bid rest]; [discriminate|].
    destruct (string_in new_stage (available_stages db bid_id));
      [|discriminate].
    intros E; injection E as <-.
    eapply single_open_ext;
      [|apply (update_bid_stage_single_open db (now env 0) (now env 1)
                 bid_id new_stage notes H)].
    reflexivity.
Qed.

Lemma step_single_open (db : Store) (a : Action) :
  single_open db -> single_open (step db a).
Proof.
  intros H; unfold step.
  destruct (perform db a) as [db'|e] eqn:E; [|exact H].
  eapply perform_single_open; eassumption.
Qed.

Lemma run_single_open (actions : list Action) :
  forall db, single_open db -> single_open (run db actions).
Proof.
  induction actions as [|a actions IH]; intros db H; simpl; [exact H|].
  apply IH, step_single_open, H.
Qed.

Lemma empty_store_single_open : single_open empty_store.
Proof. intros b; unfold open_count; simpl; lia. Qed.

(** ** Each action keeps the tables well formed *)

Lemma sql_update_bid_ids (cond : Bid -> bool) (set : Bid -> Bid)
      (t : list Bid) :
  (forall b, b_id (set b) = b_id b) ->
  map b_id (sql_update cond set t) = map b_id t.
Proof.
  intros Hset; unfold sql_update; rewrite map_map.
  apply map_ext; intros b; destruct (cond b); [apply Hset | reflexivity].
Qed.

Lemma bid_by_id_In (db : Store) (bid_id : Z) (bid : Bid) (rest : list Bid) :
  bid_by_id db bid_id = bid :: rest ->
  In bid (bids db) /\ b_id bid = bid_id.
Proof.
  intros E.
  assert (H : In bid (bid_by_id db bid_id)) by (rewrite E; left; reflexivity).
  unfold bid_by_id, sql_select in H; apply filter_In in H.
  destruct H as [H1 H2]; apply Z.eqb_eq in H2; split; assumption.
Qed.

Lemma bid_by_id_exists (db : Store) (bid_id : Z) :
  In bid_id (map b_id (bids db)) ->
  exists bid rest, bid_by_id db bid_id = bid :: rest.
Proof.
  intros H; apply in_map_iff in H; destruct H as [b [E Hb]].
  assert (Hin : In b (bid_by_id db bid_id)).
  { unfold bid_by_id, sql_select; apply filter_In; split; [exact Hb|].
    apply Z.eqb_eq; exact E. }
  destruct (bid_by_id db bid_id) as [|bid rest]; [contradiction|].
  exists bid, rest; reflexivity.
Qed.

Lemma update_bid_stage_wf db now1 now2 bid_id new_stage notes :
  store_wf db -> In bid_id (map b_id (bids db)) ->
  store_wf (update_bid_stage db now1 now2 bid_id new_stage notes).
Proof.
  intros [H1 H2 H3 H4] Hin; constructor; simpl; try assumption.
  apply Forall_app; split.
  - rewrite Forall_forall in H3 |- *.
    intros r Hr; unfold sql_update in Hr; apply in_map_iff in Hr.
    destruct Hr as [r0 [<- Hr0]].
    destruct (open_stage_of bid_id r0); simpl; apply H3, Hr0.
  - constructor; [exact Hin | constructor].
Qed.

Lemma set_bids_wf (db : Store) (cond : Bid -> bool) (set : Bid -> Bid) :
  (forall b, b_id (set b) = b_id b) ->
  store_wf db -> store_wf (set_bids db (sql_update cond set (bids db))).
Proof.
  intros Hset [H1 H2 H3 H4].
  constructor; simpl; rewrite ?sql_update_bid_ids by exact Hset;
    try assumption.
  rewrite Forall_forall in H2 |- *.
  intros b Hb; unfold sql_update in Hb; apply in_map_iff in Hb.
  destruct Hb as [b0 [<- Hb0]].
  destruct (cond b0); [rewrite Hset|]; apply H2, Hb0.
Qed.

Lemma log_bid_history_wf db user t bid_id field old_value new_value :
  store_wf db -> In bid_id (map b_id (bids db)) ->
  store_wf (log_bid_history db user t bid_id field old_value new_value).
Proof.
  intros [H1 H2 H3 H4] Hin; constructor; simpl; try assumption.
  apply Forall_app; split; [exact H4|].
  constructor; [exact Hin | constructor].
Qed.

Lemma sorted_snoc {A : Type} (R : A -> A -> Prop) (l : list A) (x : A) :
  StronglySorted R l -> Forall (fun y => R y x) l ->
  StronglySorted R (l ++ [x]).
Proof.
  induction 1 as [|a l Hs IH Ha]; intros Hx; simpl.
  - constructor; constructor.
  - inversion Hx as [|? ? Hax Hlx]; subst.
    constructor; [apply IH, Hlx|].
    apply Forall_app; split; [exact Ha | constructor; [exact Hax | constructor]].
Qed.

Lemma sorted_lt_nodup (l : list Z) : StronglySorted Z.lt l -> NoDup l.
Proof.
  induction 1 as [|a l Hs IH Ha]; constructor; [|exact IH].
  intros Hin; rewrite Forall_forall in Ha; specialize (Ha a Hin); lia.
Qed.

Lemma insert_bid_wf (db : Store) (new_bid : Bid) :
  store_wf db -> b_id new_bid = bids_seq db + 1 ->
  store_wf (mkStore (bids db ++ [new_bid]) (bids_seq db + 1)
                    (bid_stages db) (bid_stages_seq db)
                    (bid_history db) (bid_history_seq db)).
Proof.
  intros [H1 H2 H3 H4] Hid; constructor; simpl.
  - rewrite map_app; simpl.
    apply sorted_snoc; [exact H1|].
    rewrite Forall_forall in H2 |- *.
    intros i Hi; apply in_map_iff in Hi; destruct Hi as [b [<- Hb]].
    specialize (H2 b Hb); simpl in H2; lia.
  - apply Forall_app; split.
    + eapply Forall_impl; [|exact H2]; simpl; intros; lia.
    + constructor; [lia | constructor].
  - eapply Forall_impl; [|exact H3]; simpl.
    intros r Hr; rewrite map_app; apply in_or_app; left; exact Hr.
  - eapply Forall_impl; [|exact H4]; simpl.
    intros h Hh; rewrite map_app; apply in_or_app; left; exact Hh.
Qed.

Lemma perform_wf (db db' : Store) (a : Action) :
  store_wf db -> perform db a = Done db' -> store_wf db'.
Proof.
  intros H; destruct a; simpl.
  - unfold create_bid.
    destruct (is_empty title || is_empty client_name || is_empty assigned_to);
      [discriminate|].
    intros E; injection E as <-.
    apply update_bid_stage_wf.
    + apply insert_bid_wf; [exact H | reflexivity].
    + simpl; rewrite map_app; apply in_or_app; right; left; reflexivity.
  - unfold manage_bid_process_update_status.
    destruct (bid_by_id db bid_id) as [|bid rest] eqn:Eb; [discriminate|].
    apply bid_by_id_In in Eb; destruct Eb as [Hb Hid].
    assert (Hin : In bid_id (map b_id (bids db))).
    { apply in_map_iff; exists bid; split; assumption. }
    set (reason := status_reason new_status selected_reason).
    assert (Hlog : store_wf
              (log_bid_history
                 (set_bids db (sql_update (fun b => b_id b =? bid_id)
                                 (set_status_reason new_status reason)
                                 (bids db)))
                 (session_user env) (now env 0) bid_id "status"
                 (b_status bid) new_status)).
    { apply log_bid_history_wf.
      - apply set_bids_wf; [reflexivity | exact H].
      - simpl; rewrite sql_update_bid_ids by reflexivity; exact Hin. }
    assert (Hin' : In bid_id (map b_id (bids
              (log_bid_history
                 (set_bids db (sql_update (fun b => b_id b =? bid_id)
                                 (set_status_reason new_status reason)
                                 (bids db)))
                 (session_user env) (now env 0) bid_id "status"
                 (b_status bid) new_status)))).
    { simpl; rewrite sql_update_bid_ids by reflexivity; exact Hin. }
    destruct (String.eqb new_status "Won");
      [|destruct (String.eqb new_status "Lost")];
      intros E; injection E as <-;
      try (apply update_bid_stage_wf; assumption); exact Hlog.
  - unfold manage_bid_process_transition_stage.
    destruct (bid_by_id db bid_id) as [|bid rest] eqn:Eb; [discriminate|].
    apply bid_by_id_In in Eb; destruct Eb as [Hb Hid].
    destruct (string_in new_stage (available_stages db bid_id));
      [|discriminate].
    intros E; injection E as <-.
    apply (set_bids_wf
             (update_bid_stage db (now env 0) (now env 1) bid_id new_stage
                               notes)); [reflexivity|].
    apply update_bid_stage_wf; [exact H|].
    apply in_map_iff; exists bid; split; assumption.
Qed.

Lemma step_wf (db : Store) (a : Action) : store_wf db -> store_wf (step db a).
Proof.
  intros H; unfold step.
  destruct (perform db a) as [db'|e] eqn:E; [|exact H].
  eapply perform_wf; eassumption.
Qed.

Lemma run_wf (actions : list Action) :
  forall db, store_wf db -> store_wf (run db actions).
Proof.
  induction actions as [|a actions IH]; intros db H; simpl; [exact H|].
  apply IH, step_wf, H.
Qed.

Lemma empty_store_wf : store_wf empty_store.
Proof. constructor; simpl; constructor. Qed.

(** Every session that starts from the empty database ends in a
    well-formed store. *)
Lemma reachable_wf (actions : list Action) :
  store_wf (run empty_store actions).
Proof. apply run_wf, empty_store_wf. Qed.

(** * The claims *)

(** ** At most one open stage per bid *)

(** Reachable stores: every session that starts from the empty database
    ends with at most one open stage row per bid. *)
Lemma reachable_single_open (actions : list Action) :
  single_open (run empty_store actions).
Proof. apply run_single_open, empty_store_single_open. Qed.

(** C1.  Whatever sequence of create, status-update and stage-transition
    actions is performed (rejected ones included), a store in which every
    bid has at most one stage row with [completed_at] NULL is taken to a
    store with the same property. *)
Theorem C1_single_open_preserved :
  forall (actions : list Action) (db : Store),
    single_open db -> single_open (run db actions).
Proof. exact run_single_open. Qed.

Lemma C1_single_open_preserved_witness :
  single_open empty_store /\
  single_open
    (run empty_store
       [CreateBid (session_at 100) "Acme Deal" "" "Acme Corp" no_value 10 "Jane";
        TransitionStage (session_at 200) 1 "Legal Review" "ready";
        TransitionStage (session_at 300) 1 "Submission" "";
        UpdateStatus (session_at 400) 1 "Won" ""]).
Proof.
  assert (H : single_open empty_store).
  { intros b; unfold open_count; simpl; lia. }
  split; [exact H | apply C1_single_open_preserved; exact H].
Defined.

(** ** The stage column after a status change *)

(** The "Transition Stage" button keeps [bids.stage] in step with the open
    stage row: both name the new stage. *)
Lemma transition_stage_syncs_stage db env bid_id new_stage notes db' :
  manage_bid_process_transition_stage db env bid_id new_stage notes = Done db' ->
  (forall b, In b (bids db') -> b_id b = bid_id -> b_stage b = new_stage) /\
  map bs_stage (filter (open_stage_of bid_id) (bid_stages db')) = [new_stage].
Proof.
  unfold manage_bid_process_transition_stage.
  destruct (bid_by_id db bid_id) as [|bid rest]; [discriminate|].
  destruct (string_in new_stage (available_stages db bid_id)); [|discriminate].
  intros E; injection E as <-; split.
  - simpl; intros b Hb Hid; unfold sql_update in Hb.
    apply in_map_iff in Hb; destruct Hb as [b0 [<- Hb0]].
    destruct (Z.eqb_spec (b_id b0) bid_id) as [E|E]; [reflexivity|].
    contradiction.
  - simpl; rewrite filter_app, completed_none_open; simpl.
    unfold open_stage_of; simpl; rewrite Z.eqb_refl; reflexivity.
Qed.

(** C2.  The "Update Status" button does not: after a new bid is marked
    "Won", its open stage row says "Awarded" while [bids.stage] still says
    "Proposal Drafting". *)
Theorem C2_status_won_leaves_stage_stale :
  map b_stage (bid_by_id acme_won 1) = ["Proposal Drafting"] /\
  map bs_stage (filter (open_stage_of 1) (bid_stages acme_won)) = ["Awarded"].
Proof. split; vm_compute; reflexivity. Qed.

(** ** Stages on offer *)

Lemma completed_stages_In (db : Store) (bid_id : Z) (s : string) :
  In s (completed_stages db bid_id) <->
  exists r, In r (bid_stages db) /\ bs_bid_id r = bid_id /\ bs_stage r = s.
Proof.
  unfold completed_stages, stages_of, sql_select; rewrite in_map_iff; split.
  - intros [r [E Hr]]; apply order_by_In, filter_In in Hr.
    destruct Hr as [Hr Hb]; apply Z.eqb_eq in Hb.
    exists r; repeat split; assumption.
  - intros [r [Hr [Hb E]]]; exists r; split; [exact E|].
    apply order_by_In, filter_In; split; [exact Hr | apply Z.eqb_eq, Hb].
Qed.

Lemma available_stages_In (db : Store) (bid_id : Z) (s : string) :
  In s (available_stages db bid_id) <->
  In s BID_STAGES_keys /\ ~ In s (completed_stages db bid_id).
Proof.
  unfold available_stages; rewrite filter_In, negb_true_iff.
  rewrite <- string_in_In with (l := completed_stages db bid_id).
  destruct (string_in s (completed_stages db bid_id)); split;
    intros [H1 H2]; split; try assumption; try discriminate;
    try reflexivity.
  exfalso; apply H2; reflexivity.
Qed.

(** ** The "Update Status" button *)

Lemma update_bid_stage_opens db now1 now2 bid_id new_stage notes :
  opens_stage db (update_bid_stage db now1 now2 bid_id new_stage notes)
              bid_id now1 (new_stage_row db now2 bid_id new_stage notes).
Proof.
  unfold opens_stage; simpl; split; [reflexivity | split].
  - rewrite filter_app, completed_none_open; simpl.
    unfold open_stage_of; simpl; rewrite Z.eqb_refl; reflexivity.
  - intros r Hr Ho; apply in_or_app; left.
    unfold sql_update; apply in_map_iff; exists r; rewrite Ho; auto.
Qed.

Lemma opens_stage_ext (db0 db db' : Store) (bid_id t : Z) (row : BidStage) :
  bid_stages db0 = bid_stages db ->
  opens_stage db0 db' bid_id t row -> opens_stage db db' bid_id t row.
Proof. unfold opens_stage; intros <-; exact (fun H => H). Qed.

Lemma sql_update_by_id_In (bid_id : Z) (set : Bid -> Bid) (t : list Bid)
      (b' : Bid) :
  (forall b, b_id (set b) = b_id b) ->
  In b' (sql_update (fun b => b_id b =? bid_id) set t) -> b_id b' = bid_id ->
  exists b, In b t /\ b_id b = bid_id /\ b' = set b.
Proof.
  intros Hset Hin Hid; unfold sql_update in Hin; apply in_map_iff in Hin.
  destruct Hin as [b [E Hb]]; exists b.
  destruct (Z.eqb_spec (b_id b) bid_id) as [Eb|Eb].
  - repeat split; [exact Hb | exact Eb | symmetry; exact E].
  - subst b'; contradiction.
Qed.

Lemma sql_update_pointwise {A : Type} (cond : A -> bool) (set : A -> A)
      (t : list A) :
  Forall2 (fun r r' => r' = if cond r then set r else r) t
          (sql_update cond set t).
Proof. induction t; simpl; constructor; [reflexivity | assumption]. Qed.

(** C4.  For a bid that exists, "Update Status" goes through and: every row
    of that bid carries the new status and the form's reason; the ledger
    grows by exactly one row, for field "status", from the status read
    before to the new one; with "Won" the bid's open stage rows are
    completed and an "Awarded" row with notes "Bid won!" is opened, with
    "Lost" a "Lost" row with notes "Bid lost: " followed by the reason, and
    with any other status the stage table is left as it was. *)
Theorem C4_update_status_effects :
  forall (db : Store) (env : Env) (bid_id : Z)
         (new_status selected_reason : string) (bid : Bid) (rest : list Bid),
    bid_by_id db bid_id = bid :: rest ->
    exists db',
      manage_bid_process_update_status db env bid_id new_status
                                       selected_reason = Done db' /\
      map b_id (bids db') = map b_id (bids db) /\
      (forall b', In b' (bids db') -> b_id b' = bid_id ->
                  b_status b' = new_status /\
                  b_reason b'
                  = Some (status_reason new_status selected_reason)) /\
      bid_history db'
      = bid_history db ++
          [mkBidHistory (bid_history_seq db + 1) bid_id (now env 0)
                        (session_user env) "status" (b_status bid)
                        new_status] /\
      (new_status = "Won" ->
       opens_stage db db' bid_id (now env 1)
         (mkBidStage (bid_stages_seq db + 1) bid_id "Awarded"
                     "Account Manager" (now env 2) None "Bid won!")) /\
      (new_status = "Lost" ->
       opens_stage db db' bid_id (now env 1)
         (mkBidStage (bid_stages_seq db + 1) bid_id "Lost" "Sales Lead"
                     (now env 2) None
                     (String.append "Bid lost: " selected_reason))) /\
      (new_status <> "Won" -> new_status <> "Lost" ->
       bid_stages db' = bid_stages db).
Proof.
  intros db env bid_id new_status selected_reason bid rest Hb.
  unfold manage_bid_process_update_status; rewrite Hb.
  set (reason := status_reason new_status selected_reason).
  set (rows := sql_update (fun b => b_id b =? bid_id)
                          (set_status_reason new_status reason) (bids db)).
  assert (Hids : map b_id rows = map b_id (bids db)).
  { apply sql_update_bid_ids; reflexivity. }
  assert (Hrow : forall b', In b' rows -> b_id b' = bid_id ->
                            b_status b' = new_status /\
                            b_reason b' = Some reason).
  { intros b' Hin Hid.
    destruct (sql_update_by_id_In bid_id
                (set_status_reason new_status reason) (bids db) b'
                (fun _ => eq_refl) Hin Hid) as [b [_ [_ ->]]].
    split; reflexivity. }
  destruct (String.eqb_spec new_status "Won") as [Ew|Ew];
    [|destruct (String.eqb_spec new_status "Lost") as [El|El]];
    eexists; (split; [reflexivity|]);
    (split; [exact Hids|]); (split; [exact Hrow|]);
    (split; [reflexivity|]); (split; [|split]).
  - intros _; eapply opens_stage_ext; [|apply update_bid_stage_opens].
    reflexivity.
  - intros E; rewrite E in Ew; discriminate.
  - intros F; contradiction.
  - intros F; contradiction.
  - intros _.
    replace selected_reason with reason at 1
      by (unfold reason, status_reason; rewrite El; reflexivity).
    eapply opens_stage_ext; [|apply update_bid_stage_opens].
    reflexivity.
  - intros _ F; contradiction.
  - intros F; contradiction.
  - intros F; contradiction.
  - intros _ _; reflexivity.
Qed.

Lemma C4_update_status_effects_witness :
  bid_by_id acme_created 1 = [acme_bid] /\
  exists db',
    manage_bid_process_update_status acme_created (session_at 200) 1 "Lost"
                                     "Pricing too high" = Done db' /\
    bid_history db'
    = [mkBidHistory 1 1 200 "admin" "status" "Open" "Lost"] /\
    filter (open_stage_of 1) (bid_stages db')
    = [mkBidStage 2 1 "Lost" "Sales Lead" 202 None
                  "Bid lost: Pricing too high"].
Proof.
  assert (Hb : bid_by_id acme_created 1 = [acme_bid]) by reflexivity.
  split; [exact Hb|].
  destruct (C4_update_status_effects acme_created (session_at 200) 1 "Lost"
              "Pricing too high" acme_bid [] Hb)
    as [db' [E [_ [_ [Hh [_ [Hl _]]]]]]].
  exists db'; split; [exact E | split; [exact Hh|]].
  destruct (Hl eq_refl) as [_ [Ho _]]; exact Ho.
Defined.

(** C10.  For a bid that exists, "Update Status" goes through and leaves
    every row of [bids] as it was except for [status] and [reason] (rows of
    other bids entirely, and the id sequence too); and whenever the new
    status is not "Lost", the reason it writes on the bid's row is the
    empty text, whatever reason was stored before. *)
Theorem C10_update_status_frame :
  forall (db : Store) (env : Env) (bid_id : Z)
         (new_status selected_reason : string),
    In bid_id (map b_id (bids db)) ->
    exists db',
      manage_bid_process_update_status db env bid_id new_status
                                       selected_reason = Done db' /\
      Forall2 (fun b b' => same_but_status_reason b b' /\
                           (b_id b <> bid_id -> b' = b))
              (bids db) (bids db') /\
      bids_seq db' = bids_seq db /\
      (new_status <> "Lost" ->
       forall b', In b' (bids db') -> b_id b' = bid_id ->
                  b_reason b' = Some "").
Proof.
  intros db env bid_id new_status selected_reason Hin.
  destruct (bid_by_id_exists db bid_id Hin) as [bid [rest Hb]].
  unfold manage_bid_process_update_status; rewrite Hb.
  set (reason := status_reason new_status selected_reason).
  set (rows := sql_update (fun b => b_id b =? bid_id)
                          (set_status_reason new_status reason) (bids db)).
  assert (Hframe : Forall2 (fun b b' => same_but_status_reason b b' /\
                                        (b_id b <> bid_id -> b' = b))
                           (bids db) rows).
  { eapply Forall2_impl; [|apply sql_update_pointwise].
    intros b b' ->.
    destruct (Z.eqb_spec (b_id b) bid_id) as [E|E].
    - split; [unfold same_but_status_reason; simpl; tauto|].
      intros F; contradiction.
    - split; [unfold same_but_status_reason; tauto | reflexivity]. }
  assert (Hreason : new_status <> "Lost" ->
                    forall b', In b' rows -> b_id b' = bid_id ->
                               b_reason b' = Some "").
  { intros Hne b' Hb' Hid.
    destruct (sql_update_by_id_In bid_id
                (set_status_reason new_status reason) (bids db) b'
                (fun _ => eq_refl) Hb' Hid) as [b [_ [_ ->]]].
    simpl; unfold reason, status_reason.
    destruct (String.eqb_spec new_status "Lost"); [contradiction|].
    reflexivity. }
  destruct (String.eqb new_status "Won");
    [|destruct (String.eqb new_status "Lost")];
    eexists; (split; [reflexivity|]);
    (split; [exact Hframe|]); (split; [reflexivity | exact Hreason]).
Qed.

Lemma C10_update_status_frame_witness :
  In 1 (map b_id (bids acme_lost)) /\
  map b_reason (bids acme_lost) = [Some "Pricing too high"] /\
  exists db',
    manage_bid_process_update_status acme_lost (session_at 300) 1 "Open"
                                     "Pricing too high" = Done db' /\
    (forall b', In b' (bids db') -> b_id b' = 1 -> b_reason b' = Some "") /\
    Forall2 (fun b b' => same_but_status_reason b b' /\
                         (b_id b <> 1 -> b' = b))
            (bids acme_lost) (bids db').
Proof.
  assert (Hin : In 1 (map b_id (bids acme_lost))) by (left; reflexivity).
  split; [exact Hin | split; [reflexivity|]].
  destruct (C10_update_status_frame acme_lost (session_at 300) 1 "Open"
              "Pricing too high" Hin) as [db' [E [Hf [_ Hr]]]].
  exists db'; split; [exact E | split; [|exact Hf]].
  apply Hr; discriminate.
Defined.

(** ** Creating a bid *)

Lemma sql_update_untouched {A : Type} (cond : A -> bool) (set : A -> A)
      (t : list A) :
  (forall r, In r t -> cond r = false) -> sql_update cond set t = t.
Proof.
  intros H; unfold sql_update.
  rewrite <- (map_id t) at 2; apply map_ext_in.
  intros r Hr; rewrite (H r Hr); reflexivity.
Qed.

Lemma filter_none {A : Type} (cond : A -> bool) (t : list A) :
  (forall r, In r t -> cond r = false) -> filter cond t = [].
Proof.
  induction t as [|r t IH]; simpl; intros H; [reflexivity|].
  rewrite (H r (or_introl eq_refl)); apply IH.
  intros r' Hr'; apply H; right; exact Hr'.
Qed.

(** In a well-formed store no stage row belongs to the bid id that the
    sequence hands out next. *)
Lemma next_bid_has_no_stage (db : Store) (r : BidStage) :
  store_wf db -> In r (bid_stages db) ->
  (bs_bid_id r =? bids_seq db + 1) = false.
Proof.
  intros [_ Hseq Href _] Hr.
  rewrite Forall_forall in Hseq, Href.
  specialize (Href r Hr); apply in_map_iff in Href.
  destruct Href as [b [E Hb]]; specialize (Hseq b Hb); simpl in Hseq.
  apply Z.eqb_neq; lia.
Qed.

Lemma is_empty_false (s : string) : s <> "" -> is_empty s = false.
Proof. intros H; unfold is_empty; apply String.eqb_neq, H. Qed.

(** C5.  On a well-formed store, a submission whose title, client name and
    assignee are all non-empty goes through: it appends one bid row with
    the next id, status "Open" and stage "Proposal Drafting", appends one
    stage row "Proposal Drafting" with notes "Bid created" and
    [completed_at] NULL, which is then the one and only stage row the bid
    has, and leaves the ledger as it was.  A submission with any of the
    three empty is rejected with [ValidationError] and the store stays as
    it was. *)
Theorem C5_create_bid :
  forall (db : Store) (env : Env) (title description client_name : string)
         (bid_value : Q) (due_date : Z) (assigned_to : string),
    store_wf db ->
    (title <> "" -> client_name <> "" -> assigned_to <> "" ->
     exists db',
       create_bid db env title description client_name bid_value due_date
                  assigned_to = Done db' /\
       bids db'
       = bids db ++
           [mkBid (bids_seq db + 1) title description "Open"
                  "Proposal Drafting" due_date assigned_to (session_user env)
                  (now env 0) client_name bid_value None] /\
       bid_stages db'
       = bid_stages db ++
           [mkBidStage (bid_stages_seq db + 1) (bids_seq db + 1)
                       "Proposal Drafting" "Proposal Manager" (now env 2)
                       None "Bid created"] /\
       stages_of db' (bids_seq db + 1)
       = [mkBidStage (bid_stages_seq db + 1) (bids_seq db + 1)
                     "Proposal Drafting" "Proposal Manager" (now env 2)
                     None "Bid created"] /\
       bid_history db' = bid_history db) /\
    (title = "" \/ client_name = "" \/ assigned_to = "" ->
     create_bid db env title description client_name bid_value due_date
                assigned_to = Rejected ValidationError /\
     step db (CreateBid env title description client_name bid_value due_date
                        assigned_to) = db).
Proof.
  intros db env title description client_name bid_value due_date assigned_to
         Hwf; split.
  - intros Ht Hc Ha; unfold create_bid.
    rewrite (is_empty_false _ Ht), (is_empty_false _ Hc),
      (is_empty_false _ Ha); simpl.
    eexists; split; [reflexivity|].
    assert (Hkeep : sql_update (open_stage_of (bids_seq db + 1))
                      (complete_stage (now env 1)) (bid_stages db)
                    = bid_stages db).
    { apply sql_update_untouched; intros r Hr; unfold open_stage_of.
      rewrite (next_bid_has_no_stage db r Hwf Hr); reflexivity. }
    unfold stages_of; simpl; rewrite Hkeep.
    split; [reflexivity | split; [reflexivity | split; [|reflexivity]]].
    unfold sql_select; rewrite filter_app, filter_none.
    + simpl; rewrite Z.eqb_refl; reflexivity.
    + intros r Hr; apply (next_bid_has_no_stage db r Hwf Hr).
  - intros H.
    assert (E : create_bid db env title description client_name bid_value
                           due_date assigned_to = Rejected ValidationError).
    { unfold create_bid; destruct H as [-> | [-> | ->]]; simpl;
        rewrite ?orb_true_r; reflexivity. }
    split; [exact E|].
    unfold step; simpl; rewrite E; reflexivity.
Qed.

Lemma C5_create_bid_witness :
  store_wf empty_store /\
  (exists db',
      create_bid empty_store (session_at 100) "Acme Deal" "" "Acme Corp"
                 no_value 10 "Jane" = Done db' /\
      bids db' = [acme_bid] /\
      stages_of db' 1
      = [mkBidStage 1 1 "Proposal Drafting" "Proposal Manager" 102 None
                    "Bid created"] /\
      bid_history db' = []) /\
  create_bid empty_store (session_at 100) "Acme Deal" "" "" no_value 10
             "Jane" = Rejected ValidationError.
Proof.
  assert (Hwf : store_wf empty_store) by (constructor; simpl; constructor).
  split; [exact Hwf|].
  pose proof (C5_create_bid empty_store (session_at 100) "Acme Deal" ""
                "Acme Corp" no_value 10 "Jane" Hwf) as Hok.
  pose proof (C5_create_bid empty_store (session_at 100) "Acme Deal" ""
                "" no_value 10 "Jane" Hwf) as Hbad.
  split.
  - destruct (proj1 Hok) as [db' [E [Hb [_ [Hs Hh]]]]]; try discriminate.
    exists db'; repeat split; assumption.
  - apply (proj2 Hbad); right; left; reflexivity.
Defined.

(** ** The registry *)

(** C6.  The owner looked up for each of the seven registry keys is the one
    the registry maps it to, and for every other name the lookup answers
    "Unassigned"; being a total function, it rejects no name. *)
Theorem C6_stage_owner_for :
  stage_owner_for "Proposal Drafting" = "Proposal Manager" /\
  stage_owner_for "Legal Review" = "Legal Team" /\
  stage_owner_for "Pricing Review" = "Finance Team" /\
  stage_owner_for "Submission" = "Sales Lead" /\
  stage_owner_for "Evaluation" = "Client" /\
  stage_owner_for "Awarded" = "Account Manager" /\
  stage_owner_for "Lost" = "Sales Lead" /\
  BID_STAGES_keys
  = ["Proposal Drafting"; "Legal Review"; "Pricing Review"; "Submission";
     "Evaluation"; "Awarded"; "Lost"] /\
  forall stage_name,
    ~ In stage_name BID_STAGES_keys ->
    stage_owner_for stage_name = "Unassigned".
Proof.
  repeat (split; [reflexivity|]).
  intros stage_name H; apply dict_get_missing, H.
Qed.

Lemma C6_stage_owner_for_witness :
  ~ In "Kick-off" BID_STAGES_keys /\ stage_owner_for "Kick-off" = "Unassigned".
Proof.
  assert (H : ~ In "Kick-off" BID_STAGES_keys).
  { simpl; intros F; repeat (destruct F as [F|F]; [discriminate F|]);
      exact F. }
  split; [exact H|].
  apply (proj2 (proj2 (proj2 (proj2 (proj2 (proj2 (proj2 (proj2
           C6_stage_owner_for)))))))), H.
Defined.

(** ** [update_bid_stage] closes every open stage of the bid *)

(** C9.  After one call of [update_bid_stage], whatever the store held,
    the bid has exactly one open stage row, namely the row just inserted:
    every row of the bid that was open is now completed at the time of the
    call, and no row of the bid from before the call is still open. *)
Theorem C9_update_bid_stage_closes_all :
  forall (db : Store) (now1 now2 : Z) (bid_id : Z) (new_stage notes : string),
    open_count (update_bid_stage db now1 now2 bid_id new_stage notes) bid_id
    = 1%nat /\
    filter (open_stage_of bid_id)
           (bid_stages (update_bid_stage db now1 now2 bid_id new_stage notes))
    = [new_stage_row db now2 bid_id new_stage notes] /\
    (forall r, In r (bid_stages db) -> open_stage_of bid_id r = true ->
               In (complete_stage now1 r)
                  (bid_stages
                     (update_bid_stage db now1 now2 bid_id new_stage notes)))
    /\
    Forall (fun r => bs_bid_id r = bid_id -> bs_completed_at r <> None)
           (firstn (List.length (bid_stages db))
                   (bid_stages
                      (update_bid_stage db now1 now2 bid_id new_stage notes))).
Proof.
  intros db now1 now2 bid_id new_stage notes.
  destruct (update_bid_stage_opens db now1 now2 bid_id new_stage notes)
    as [_ [Ho Hc]].
  split; [apply open_count_update_same | split; [exact Ho | split]];
    [exact Hc|].
  simpl.
  assert (Hlen : List.length
                   (sql_update (open_stage_of bid_id) (complete_stage now1)
                               (bid_stages db))
                 = List.length (bid_stages db))
    by (unfold sql_update; apply length_map).
  rewrite <- Hlen, firstn_app, Nat.sub_diag, firstn_all; simpl.
  rewrite app_nil_r, Forall_forall.
  intros r Hr Hb; unfold sql_update in Hr; apply in_map_iff in Hr.
  destruct Hr as [r0 [<- Hr0]].
  destruct (open_stage_of bid_id r0) eqn:E; simpl; [discriminate|].
  unfold open_stage_of in E; simpl in Hb.
  rewrite Hb, Z.eqb_refl in E; simpl in E.
  destruct (bs_completed_at r0); [discriminate | discriminate E].
Qed.

Example update_bid_stage_closes_two_open :
  open_count two_open 7 = 2%nat /\
  open_count (update_bid_stage two_open 20 21 7 "Submission" "") 7 = 1%nat /\
  open_count (update_bid_stage two_open 20 21 7 "Submission" "") 8 = 1%nat.
Proof. repeat split. Qed.

(** ** Deadline reminders *)

Lemma sorted_map_filter {A B : Type} (R : B -> B -> Prop) (f : A -> B)
      (cond : A -> bool) (l : list A) :
  StronglySorted R (map f l) -> StronglySorted R (map f (filter cond l)).
Proof.
  induction l as [|a l IH]; simpl; intros H; [constructor|].
  apply StronglySorted_inv in H; destruct H as [Hs Ha].
  destruct (cond a); simpl; [|apply IH, Hs].
  constructor; [apply IH, Hs|].
  rewrite Forall_forall in Ha |- *.
  intros y Hy; apply Ha.
  apply in_map_iff in Hy; destruct Hy as [x [<- Hx]].
  apply filter_In in Hx; apply in_map, Hx.
Qed.

(** C7, as the code has it.  On a well-formed store the reminder query
    lists exactly the bids whose status is "Open" and whose due date is at
    most three days after today, each as (id, title, due date), in the order
    of the [bids] table, that is by ascending bid id. *)
Theorem C7_deadline_reminders_in_table_order :
  forall (db : Store) (today : Z),
    store_wf db ->
    (forall (id : Z) (title : string) (due : Z),
        In (id, title, due) (show_deadline_reminders db today) <->
        exists b, In b (bids db) /\ b_id b = id /\ b_title b = title /\
                  b_due_date b = due /\ b_status b = "Open" /\
                  b_due_date b <= today + 3) /\
    StronglySorted Z.lt
      (map (fun row => fst (fst row)) (show_deadline_reminders db today)).
Proof.
  intros db today Hwf; unfold show_deadline_reminders, sql_select; split.
  - intros id title due; rewrite in_map_iff; split.
    + intros [b [E Hb]]; injection E as <- <- <-.
      apply filter_In in Hb; destruct Hb as [Hb Hc].
      apply andb_true_iff in Hc; destruct Hc as [Hd Hs].
      apply Z.leb_le in Hd; apply String.eqb_eq in Hs.
      exists b; repeat split; assumption.
    + intros [b [Hb [<- [<- [<- [Hs Hd]]]]]]; exists b; split; [reflexivity|].
      apply filter_In; split; [exact Hb|].
      apply andb_true_iff; split; [apply Z.leb_le, Hd|].
      apply String.eqb_eq, Hs.
  - rewrite map_map; simpl.
    apply sorted_map_filter, (wf_ids_sorted db Hwf).
Qed.

Lemma C7_deadline_reminders_in_table_order_witness :
  store_wf three_bids /\
  In (2, "Early", 2) (show_deadline_reminders three_bids 2) /\
  ~ In (3, "Closed", 3) (show_deadline_reminders three_bids 2) /\
  StronglySorted Z.lt
    (map (fun row => fst (fst row)) (show_deadline_reminders three_bids 2)).
Proof.
  assert (Hwf : store_wf three_bids).
  { constructor; simpl;
      repeat (constructor; simpl; try lia; auto 6). }
  split; [exact Hwf|].
  destruct (C7_deadline_reminders_in_table_order three_bids 2 Hwf)
    as [Hm Hs].
  split; [|split; [|exact Hs]].
  - apply Hm.
    exists (mkBid 2 "Early" "" "Open" "Proposal Drafting" 2 "Joe" "admin" 200
                  "Bolt Ltd" no_value None).
    simpl; repeat split; auto; lia.
  - intros F; apply Hm in F.
    destruct F as [b [Hb [Hid [_ [_ [Hst _]]]]]].
    simpl in Hb.
    destruct Hb as [<-|[<-|[<-|[]]]]; simpl in Hid, Hst; try lia.
    discriminate Hst.
Defined.

(** C7, as the claim has it, fails: with two open bids of which the later
    one is due first, the reminders come in table order, later due date
    first. *)
Lemma C7_reminders_not_sorted_by_due_date :
  show_deadline_reminders three_bids 2 = [(1, "Late", 5); (2, "Early", 2)] /\
  ~ StronglySorted Z.le (map snd (show_deadline_reminders three_bids 2)).
Proof.
  assert (E : show_deadline_reminders three_bids 2
              = [(1, "Late", 5); (2, "Early", 2)]) by reflexivity.
  split; [exact E|].
  rewrite E; simpl; intros H.
  apply StronglySorted_inv in H; destruct H as [_ H].
  apply Forall_inv in H; lia.
Qed.

(** ** The audit trail *)

Lemma sorted_firstn {A : Type} (R : A -> A -> Prop) (n : nat) (l : list A) :
  StronglySorted R l -> StronglySorted R (firstn n l).
Proof.
  intros H; revert n.
  induction H as [|a l Hs IH Ha]; intros [|n]; simpl; try constructor.
  - apply IH.
  - rewrite Forall_forall in Ha |- *.
    intros y Hy; apply Ha.
    rewrite <- (firstn_skipn n l); apply in_or_app; left; exact Hy.
Qed.

Lemma insert_by_map {A B : Type} (g : A -> B) (before : A -> A -> bool)
      (before' : B -> B -> bool) (x : A) (l : list A) :
  (forall a b, before' (g a) (g b) = before a b) ->
  insert_by before' (g x) (map g l) = map g (insert_by before x l).
Proof.
  intros H; induction l as [|y l IH]; simpl; [reflexivity|].
  rewrite H; destruct (before x y); simpl; [reflexivity|].
  rewrite IH; reflexivity.
Qed.

Lemma order_by_map {A B : Type} (g : A -> B) (before : A -> A -> bool)
      (before' : B -> B -> bool) (l : list A) :
  (forall a b, before' (g a) (g b) = before a b) ->
  order_by before' (map g l) = map g (order_by before l).
Proof.
  intros H; unfold order_by.
  induction l as [|x l IH]; simpl; [reflexivity|].
  rewrite IH; apply insert_by_map, H.
Qed.

(** With distinct bid ids, the join condition picks one bid per key. *)
Lemma join_picks_one (bs : list Bid) (k : Z) :
  NoDup (map b_id bs) -> In k (map b_id bs) ->
  exists b, filter (fun b' => k =? b_id b') bs = [b].
Proof.
  induction bs as [|b0 bs IH]; simpl; intros Hnd Hin; [contradiction|].
  apply NoDup_cons_iff in Hnd; destruct Hnd as [Hfresh Hnd].
  destruct (Z.eqb_spec k (b_id b0)) as [E|E].
  - exists b0; f_equal; apply filter_none.
    intros b Hb; apply Z.eqb_neq; intros F; apply Hfresh.
    rewrite <- E, F; apply in_map, Hb.
  - destruct Hin as [F|Hin]; [congruence|].
    apply IH; assumption.
Qed.

(** The title the join attaches to a ledger row. *)
Lemma join_bid_title_total (db : Store) :
  store_wf db ->
  exists title_of : BidHistory -> string,
    join_bid_title (bid_history db) (bids db)
    = map (fun h => (h, title_of h)) (bid_history db).
Proof.
  intros [Hs _ _ Hh].
  exists (fun h => match filter (fun b => h_bid_id h =? b_id b) (bids db) with
                   | b :: _ => b_title b
                   | [] => ""
                   end).
  unfold join_bid_title.
  induction (bid_history db) as [|h hs IH]; simpl; [reflexivity|].
  apply Forall_cons_iff in Hh; destruct Hh as [Hin Hh].
  rewrite (IH Hh).
  destruct (join_picks_one (bids db) (h_bid_id h) (sorted_lt_nodup _ Hs) Hin)
    as [b ->].
  reflexivity.
Qed.

(** C8.  The per-bid query returns the ledger rows of that bid, each as
    often as it is stored, by descending [changed_at].  On a well-formed
    store the cross-bid query returns, with the bid title attached, the
    first 50 rows of the whole ledger by descending [changed_at]: at most
    50 rows, in descending order, and no row left out is more recent than
    a row returned. *)
Theorem C8_audit_trail_queries :
  forall (db : Store) (bid_id : Z),
    store_wf db ->
    (Permutation (show_audit_trail_history db bid_id)
                 (filter (fun h => h_bid_id h =? bid_id) (bid_history db)) /\
     StronglySorted (fun x y => h_changed_at y <= h_changed_at x)
                    (show_audit_trail_history db bid_id)) /\
    (map fst (show_audit_trail_recent db)
     = firstn 50 (order_by (desc h_changed_at) (bid_history db)) /\
     Permutation (order_by (desc h_changed_at) (bid_history db))
                 (bid_history db) /\
     StronglySorted (fun x y => h_changed_at y <= h_changed_at x)
                    (map fst (show_audit_trail_recent db)) /\
     (List.length (show_audit_trail_recent db) <= 50)%nat /\
     (forall x y,
         In x (map fst (show_audit_trail_recent db)) ->
         In y (skipn 50 (order_by (desc h_changed_at) (bid_history db))) ->
         h_changed_at y <= h_changed_at x)).
Proof.
  intros db bid_id Hwf; split.
  - unfold show_audit_trail_history, sql_select; split.
    + apply order_by_perm.
    + apply order_by_desc_sorted.
  - assert (E : map fst (show_audit_trail_recent db)
                = firstn 50 (order_by (desc h_changed_at) (bid_history db))).
    { unfold show_audit_trail_recent.
      destruct (join_bid_title_total db Hwf) as [title_of ->].
      rewrite (order_by_map (fun h => (h, title_of h)) (desc h_changed_at))
        by reflexivity.
      rewrite firstn_map, map_map; simpl; apply map_id. }
    split; [exact E | split; [apply order_by_perm | split; [|split]]].
    + rewrite E; apply sorted_firstn, order_by_desc_sorted.
    + unfold show_audit_trail_recent; apply firstn_le_length.
    + rewrite E; intros x y Hx Hy.
      apply (sorted_firstn_dominates
               (fun x y => h_changed_at y <= h_changed_at x) 50
               (order_by (desc h_changed_at) (bid_history db)));
        [apply order_by_desc_sorted | exact Hx | exact Hy].
Qed.

Lemma C8_audit_trail_queries_witness :
  store_wf audit_sample /\
  map h_changed_at (show_audit_trail_history audit_sample 1) = [500; 300] /\
  map (fun r => (h_changed_at (fst r), snd r))
      (show_audit_trail_recent audit_sample)
  = [(500, "Acme Deal"); (400, "Bolt Deal"); (300, "Acme Deal")] /\
  StronglySorted (fun x y => h_changed_at y <= h_changed_at x)
                 (show_audit_trail_history audit_sample 1) /\
  map fst (show_audit_trail_recent audit_sample)
  = firstn 50 (order_by (desc h_changed_at) (bid_history audit_sample)).
Proof.
  assert (Hwf : store_wf audit_sample).
  { constructor; simpl; repeat (constructor; simpl; try lia; auto 6). }
  split; [exact Hwf | split; [reflexivity | split; [reflexivity|]]].
  destruct (C8_audit_trail_queries audit_sample 1 Hwf)
    as [[_ Hs] [E _]].
  split; [exact Hs | exact E].
Defined.

(** * Further properties *)

(** ** Case analysis on an action that went through *)

Ltac perform_cases H :=
  match type of H with
  | perform _ ?a = Done _ =>
      destruct a as [env title description client_name bid_value due_date
                         assigned_to
                    |env bid_id new_status selected_reason
                    |env bid_id new_stage notes];
      simpl in H;
      [ unfold create_bid in H;
        destruct (is_empty title || is_empty client_name
                  || is_empty assigned_to) eqn:Efields;
        [discriminate H|]; injection H as <-
      | unfold manage_bid_process_update_status in H;
        destruct (bid_by_id _ bid_id) as [|bid rest] eqn:Ebid;
        [discriminate H|];
        destruct (String.eqb new_status "Won") eqn:Ewon;
        [|destruct (String.eqb new_status "Lost") eqn:Elost];
        injection H as <-
      | unfold manage_bid_process_transition_stage in H;
        destruct (bid_by_id _ bid_id) as [|bid rest] eqn:Ebid;
        [discriminate H|];
        destruct (string_in new_stage (available_stages _ bid_id)) eqn:Eoffer;
        [|discriminate H]; injection H as <- ]
  end.

Lemma run_invariant (P : Store -> Prop) :
  (forall db a db', P db -> perform db a = Done db' -> P db') ->
  forall actions db, P db -> P (run db actions).
Proof.
  intros Hstep actions; induction actions as [|a actions IH]; intros db H;
    simpl; [exact H|].
  apply IH; unfold step.
  destruct (perform db a) as [db'|e] eqn:E; [|exact H].
  eapply Hstep; eassumption.
Qed.

Lemma run_preorder (R : Store -> Store -> Prop) :
  (forall db, R db db) ->
  (forall db1 db2 db3, R db1 db2 -> R db2 db3 -> R db1 db3) ->
  (forall db a db', perform db a = Done db' -> R db db') ->
  forall actions db, R db (run db actions).
Proof.
  intros Hrefl Htrans Hstep actions.
  induction actions as [|a actions IH]; intros db; simpl; [apply Hrefl|].
  eapply Htrans; [|apply IH].
  unfold step; destruct (perform db a) as [db'|e] eqn:E;
    [eapply Hstep; exact E | apply Hrefl].
Qed.

Lemma bid_by_id_none (db : Store) (bid_id : Z) :
  ~ In bid_id (map b_id (bids db)) -> bid_by_id db bid_id = [].
Proof.
  intros H; unfold bid_by_id, sql_select; apply filter_none.
  intros b Hb; apply Z.eqb_neq; intros E; apply H.
  rewrite <- E; apply in_map, Hb.
Qed.

(** ** The two buttons of [manage_bid_process] *)

(** X1.  Neither button does anything for a bid id that is not in the
    table: both answer "Bid not found" and the store stays as it was. *)
Theorem manage_bid_process_unknown_bid :
  forall (db : Store) (env : Env) (bid_id : Z)
         (new_status selected_reason new_stage notes : string),
    ~ In bid_id (map b_id (bids db)) ->
    manage_bid_process_update_status db env bid_id new_status selected_reason
    = Rejected NotFoundError /\
    manage_bid_process_transition_stage db env bid_id new_stage notes
    = Rejected NotFoundError /\
    step db (UpdateStatus env bid_id new_status selected_reason) = db /\
    step db (TransitionStage env bid_id new_stage notes) = db.
Proof.
  intros db env bid_id new_status selected_reason new_stage notes H.
  unfold step; simpl.
  unfold manage_bid_process_update_status,
    manage_bid_process_transition_stage.
  rewrite (bid_by_id_none db bid_id H); repeat split.
Qed.

Lemma manage_bid_process_unknown_bid_witness :
  ~ In 2 (map b_id (bids acme_created)) /\
  manage_bid_process_update_status acme_created (session_at 200) 2 "Won" ""
  = Rejected NotFoundError /\
  manage_bid_process_transition_stage acme_created (session_at 200) 2
    "Legal Review" "" = Rejected NotFoundError.
Proof.
  assert (H : ~ In 2 (map b_id (bids acme_created))).
  { simpl; intros [F|F]; [discriminate F | exact F]. }
  split; [exact H|].
  destruct (manage_bid_process_unknown_bid acme_created (session_at 200) 2
              "Won" "" "Legal Review" "" H) as [H1 [H2 _]].
  split; assumption.
Defined.

Lemma not_used_not_completed (db : Store) (bid_id : Z) (s : string) :
  (forall r, In r (bid_stages db) -> bs_bid_id r = bid_id ->
             bs_stage r <> s) ->
  ~ In s (completed_stages db bid_id).
Proof.
  intros H Hin; apply completed_stages_In in Hin.
  destruct Hin as [r [Hr [Hb Hs]]]; exact (H r Hr Hb Hs).
Qed.

(** X2.  For a bid that exists, a registry stage that none of the bid's
    stage rows carries is accepted by "Transition Stage": the bid's open
    stage rows are completed, a row for the new stage is opened as the only
    open one with the registry's owner, [bids.stage] of that bid becomes the
    new stage while status, reason and the other columns stay, rows of other
    bids are untouched, and nothing is written to the ledger. *)
Theorem transition_stage_effects :
  forall (db : Store) (env : Env) (bid_id : Z) (new_stage notes : string),
    In bid_id (map b_id (bids db)) ->
    In new_stage BID_STAGES_keys ->
    (forall r, In r (bid_stages db) -> bs_bid_id r = bid_id ->
               bs_stage r <> new_stage) ->
    exists db',
      manage_bid_process_transition_stage db env bid_id new_stage notes
      = Done db' /\
      opens_stage db db' bid_id (now env 0)
        (mkBidStage (bid_stages_seq db + 1) bid_id new_stage
                    (stage_owner_for new_stage) (now env 1) None notes) /\
      stage_owner_for new_stage <> "Unassigned" /\
      Forall2 (fun b b' =>
                 same_core b b' /\ b_status b' = b_status b /\
                 b_reason b' = b_reason b /\
                 (b_id b = bid_id -> b_stage b' = new_stage) /\
                 (b_id b <> bid_id -> b' = b))
              (bids db) (bids db') /\
      bid_history db' = bid_history db.
Proof.
  intros db env bid_id new_stage notes Hin Hkey Hfresh.
  destruct (bid_by_id_exists db bid_id Hin) as [bid [rest Hb]].
  unfold manage_bid_process_transition_stage; rewrite Hb.
  assert (Hoffer : string_in new_stage (available_stages db bid_id) = true).
  { apply string_in_In, available_stages_In; split; [exact Hkey|].
    apply not_used_not_completed, Hfresh. }
  rewrite Hoffer; eexists; split; [reflexivity|].
  split; [|split; [|split; [|reflexivity]]].
  - eapply opens_stage_ext; [|apply update_bid_stage_opens]; reflexivity.
  - unfold BID_STAGES_keys in Hkey; simpl in Hkey.
    repeat (destruct Hkey as [<-|Hkey]; [discriminate|]); contradiction.
  - simpl; eapply Forall2_impl; [|apply sql_update_pointwise].
    intros b b' ->.
    destruct (Z.eqb_spec (b_id b) bid_id) as [E|E]; unfold same_core; simpl.
    + repeat split; try reflexivity. intros F; contradiction.
    + repeat split; try reflexivity. intros F; contradiction.
Qed.

Lemma transition_stage_effects_witness :
  In 1 (map b_id (bids acme_created)) /\
  In "Legal Review" BID_STAGES_keys /\
  exists db',
    manage_bid_process_transition_stage acme_created (session_at 200) 1
      "Legal Review" "ready" = Done db' /\
    filter (open_stage_of 1) (bid_stages db')
    = [mkBidStage 2 1 "Legal Review" "Legal Team" 201 None "ready"] /\
    bid_history db' = [].
Proof.
  assert (Hin : In 1 (map b_id (bids acme_created))) by (left; reflexivity).
  assert (Hkey : In "Legal Review" BID_STAGES_keys)
    by (right; left; reflexivity).
  split; [exact Hin | split; [exact Hkey|]].
  destruct (transition_stage_effects acme_created (session_at 200) 1
              "Legal Review" "ready" Hin Hkey)
    as [db' [E [[_ [Ho _]] [_ [_ Hh]]]]].
  - simpl; intros r [<-|[]] _; discriminate.
  - exists db'; split; [exact E | split; [exact Ho | exact Hh]].
Defined.

(** ** Stages still on offer *)

Lemma BID_STAGES_keys_nodup : NoDup BID_STAGES_keys.
Proof.
  unfold BID_STAGES_keys; simpl.
  repeat (constructor;
          [simpl; intros F;
           repeat (destruct F as [F|F]; [discriminate F|]); exact F|]).
  constructor.
Qed.

Lemma filter_filter {A : Type} (p q : A -> bool) (l : list A) :
  filter q (filter p l) = filter (fun x => p x && q x) l.
Proof.
  induction l as [|x l IH]; simpl; [reflexivity|].
  destruct (p x); simpl; [destruct (q x); [f_equal|]; exact IH | exact IH].
Qed.

Lemma filter_remove_one (x : string) (l : list string) :
  NoDup l -> In x l ->
  S (List.length (filter (fun s => negb (String.eqb s x)) l)) = List.length l.
Proof.
  induction 1 as [|y l Hy Hnd IH]; simpl; intros Hin; [contradiction|].
  destruct (String.eqb_spec y x) as [E|E]; simpl.
  - f_equal; f_equal.
    rewrite <- (filter_ext_in (fun _ => true)).
    + clear; induction l; simpl; [reflexivity | f_equal; assumption].
    + intros a Ha; symmetry; apply negb_true_iff, String.eqb_neq.
      intros F; apply Hy; rewrite E, <- F; exact Ha.
  - f_equal; apply IH.
    destruct Hin as [F|Hin]; [contradiction | exact Hin].
Qed.

Lemma string_in_app (s : string) (l1 l2 : list string) :
  string_in s (l1 ++ l2) = string_in s l1 || string_in s l2.
Proof. unfold string_in; apply existsb_app. Qed.

(** The stage names a bid has once [update_bid_stage] has run for it. *)
Lemma completed_stages_after_update db now1 now2 bid_id new_stage notes
      (s : string) (db' : Store) :
  bid_stages db'
  = bid_stages (update_bid_stage db now1 now2 bid_id new_stage notes) ->
  string_in s (completed_stages db' bid_id)
  = string_in s (completed_stages db bid_id) || String.eqb s new_stage.
Proof.
  intros Hst; apply eq_true_iff_eq.
  rewrite orb_true_iff, !string_in_In, !completed_stages_In, Hst; simpl.
  split.
  - intros [r [Hr [Hb Hs]]]; apply in_app_or in Hr.
    destruct Hr as [Hr|[<-|[]]].
    + left; unfold sql_update in Hr; apply in_map_iff in Hr.
      destruct Hr as [r0 [<- Hr0]]; exists r0.
      destruct (open_stage_of bid_id r0); simpl in *; auto.
    + right; simpl in Hs; subst s; apply String.eqb_refl.
  - intros [[r [Hr [Hb Hs]]]|E].
    + exists (if open_stage_of bid_id r then complete_stage now1 r else r).
      split; [|destruct (open_stage_of bid_id r); simpl; auto].
      apply in_or_app; left; unfold sql_update; apply in_map_iff.
      exists r; auto.
    + apply String.eqb_eq in E; subst s.
      exists (new_stage_row db now2 bid_id new_stage notes).
      split; [apply in_or_app; right; left; reflexivity|].
      split; reflexivity.
Qed.

Lemma available_stages_after_update db now1 now2 bid_id new_stage notes
      (db' : Store) :
  bid_stages db'
  = bid_stages (update_bid_stage db now1 now2 bid_id new_stage notes) ->
  available_stages db' bid_id
  = filter (fun s => negb (String.eqb s new_stage))
           (available_stages db bid_id).
Proof.
  intros Hst; unfold available_stages; rewrite filter_filter.
  apply filter_ext; intros s.
  rewrite (completed_stages_after_update db now1 now2 bid_id new_stage notes
             s db' Hst).
  apply negb_orb.
Qed.

(** X3.  Every transition that goes through takes exactly the chosen stage
    off the offer of that bid: the list of available stages loses that one
    name and keeps the others in registry order, so it gets shorter by one
    each time. *)
Theorem transition_stage_uses_up_stage :
  forall (db db' : Store) (env : Env) (bid_id : Z) (new_stage notes : string),
    manage_bid_process_transition_stage db env bid_id new_stage notes
    = Done db' ->
    In new_stage (available_stages db bid_id) /\
    available_stages db' bid_id
    = filter (fun s => negb (String.eqb s new_stage))
             (available_stages db bid_id) /\
    S (List.length (available_stages db' bid_id))
    = List.length (available_stages db bid_id).
Proof.
  intros db db' env bid_id new_stage notes H.
  unfold manage_bid_process_transition_stage in H.
  destruct (bid_by_id db bid_id) as [|bid rest]; [discriminate|].
  destruct (string_in new_stage (available_stages db bid_id)) eqn:Eoffer;
    [|discriminate].
  injection H as Hdb.
  apply string_in_In in Eoffer.
  assert (E : available_stages db' bid_id
              = filter (fun s => negb (String.eqb s new_stage))
                       (available_stages db bid_id)).
  { apply (available_stages_after_update db (now env 0) (now env 1) bid_id
             new_stage notes db').
    rewrite <- Hdb; reflexivity. }
  split; [exact Eoffer | split; [exact E|]].
  rewrite E; apply filter_remove_one; [|exact Eoffer].
  unfold available_stages; apply NoDup_filter, BID_STAGES_keys_nodup.
Qed.

Lemma transition_stage_uses_up_stage_witness :
  manage_bid_process_transition_stage acme_created (session_at 200) 1
    "Legal Review" "ready" = Done acme_in_legal /\
  available_stages acme_created 1
  = ["Legal Review"; "Pricing Review"; "Submission"; "Evaluation"; "Awarded";
     "Lost"] /\
  available_stages acme_in_legal 1
  = filter (fun s => negb (String.eqb s "Legal Review"))
           (available_stages acme_created 1).
Proof.
  assert (H : manage_bid_process_transition_stage acme_created
                (session_at 200) 1 "Legal Review" "ready"
              = Done acme_in_legal) by reflexivity.
  split; [exact H | split; [reflexivity|]].
  exact (proj1 (proj2 (transition_stage_uses_up_stage _ _ _ _ _ _ H))).
Defined.

(** ** What an action leaves alone *)

Lemma completed_rows_of_other (b bid_id t : Z) (rows : list BidStage) :
  b <> bid_id ->
  filter (fun r => bs_bid_id r =? b)
         (sql_update (open_stage_of bid_id) (complete_stage t) rows)
  = filter (fun r => bs_bid_id r =? b) rows.
Proof.
  intros Hne; induction rows as [|r rows IH]; simpl; [reflexivity|].
  destruct (open_stage_of bid_id r) eqn:E; simpl.
  - unfold open_stage_of in E; apply andb_true_iff in E.
    destruct E as [E _]; apply Z.eqb_eq in E.
    destruct (Z.eqb_spec (bs_bid_id r) b); [lia | exact IH].
  - destruct (bs_bid_id r =? b); [f_equal|]; exact IH.
Qed.

Lemma updated_bids_of_other (b bid_id : Z) (set : Bid -> Bid)
      (l : list Bid) :
  (forall x, b_id (set x) = b_id x) -> b <> bid_id ->
  filter (fun x => b_id x =? b)
         (sql_update (fun x => b_id x =? bid_id) set l)
  = filter (fun x => b_id x =? b) l.
Proof.
  intros Hset Hne; induction l as [|x l IH]; simpl; [reflexivity|].
  destruct (Z.eqb_spec (b_id x) bid_id) as [E|E]; simpl.
  - rewrite Hset.
    destruct (Z.eqb_spec (b_id x) b); [lia | exact IH].
  - destruct (b_id x =? b); [f_equal|]; exact IH.
Qed.

Lemma stage_rows_of_update_other db now1 now2 bid_id new_stage notes b :
  b <> bid_id ->
  stage_rows_of (update_bid_stage db now1 now2 bid_id new_stage notes) b
  = stage_rows_of db b.
Proof.
  intros Hne; unfold stage_rows_of, sql_select; simpl.
  rewrite filter_app, completed_rows_of_other by exact Hne; simpl.
  destruct (Z.eqb_spec bid_id b); [lia | apply app_nil_r].
Qed.

Lemma available_stages_ext (db1 db2 : Store) (b : Z) :
  stage_rows_of db1 b = stage_rows_of db2 b ->
  available_stages db1 b = available_stages db2 b.
Proof.
  unfold available_stages, completed_stages, stages_of, stage_rows_of.
  intros ->; reflexivity.
Qed.

(** X4.  An action touches one bid only: for every other bid id, the bid's
    row, its stage rows, its ledger rows and the stages still on offer are
    the same after the action as before, whether the action went through or
    was rejected. *)
Theorem action_leaves_other_bids_alone :
  forall (db : Store) (a : Action) (b : Z),
    b <> action_target db a ->
    bid_by_id (step db a) b = bid_by_id db b /\
    stage_rows_of (step db a) b = stage_rows_of db b /\
    ledger_of (step db a) b = ledger_of db b /\
    available_stages (step db a) b = available_stages db b.
Proof.
  intros db a b Hne.
  assert (H : bid_by_id (step db a) b = bid_by_id db b /\
              stage_rows_of (step db a) b = stage_rows_of db b /\
              ledger_of (step db a) b = ledger_of db b).
  { unfold step; destruct (perform db a) as [db'|e] eqn:E;
      [|repeat split].
    perform_cases E; simpl in Hne;
      unfold bid_by_id, ledger_of, sql_select;
      rewrite ?stage_rows_of_update_other by exact Hne;
      unfold stage_rows_of, sql_select; simpl;
      rewrite ?filter_app, ?updated_bids_of_other by (auto; reflexivity);
      rewrite ?completed_rows_of_other by exact Hne;
      simpl;
      try (destruct (Z.eqb_spec (bids_seq db + 1) b); [lia|]);
      try (destruct (Z.eqb_spec bid_id b); [lia|]);
      rewrite ?app_nil_r; repeat split. }
  destruct H as [H1 [H2 H3]]; repeat split; try assumption.
  apply available_stages_ext, H2.
Qed.

Lemma action_leaves_other_bids_alone_witness :
  2 <> action_target audit_sample
         (UpdateStatus (session_at 600) 1 "Lost" "Missed deadline") /\
  bid_by_id (step audit_sample
               (UpdateStatus (session_at 600) 1 "Lost" "Missed deadline")) 2
  = bid_by_id audit_sample 2 /\
  stage_rows_of (step audit_sample
                   (UpdateStatus (session_at 600) 1 "Lost" "Missed deadline"))
                2
  = stage_rows_of audit_sample 2.
Proof.
  assert (H : 2 <> action_target audit_sample
                     (UpdateStatus (session_at 600) 1 "Lost"
                                   "Missed deadline"))
    by (simpl; lia).
  split; [exact H|].
  destruct (action_leaves_other_bids_alone audit_sample
              (UpdateStatus (session_at 600) 1 "Lost" "Missed deadline") 2 H)
    as [H1 [H2 _]].
  split; assumption.
Defined.

(** ** The status button and the stages it opens *)

Lemma filter_sql_update_length {A : Type} (p cond : A -> bool)
      (set : A -> A) (l : list A) :
  (forall x, p (set x) = p x) ->
  List.length (filter p (sql_update cond set l)) = List.length (filter p l).
Proof.
  intros H; induction l as [|x l IH]; simpl; [reflexivity|].
  destruct (cond x); rewrite ?H; destruct (p x); simpl; rewrite IH;
    reflexivity.
Qed.

Lemma update_bid_stage_appends_named db now1 now2 bid_id new_stage notes :
  List.length
    (stage_rows_named (update_bid_stage db now1 now2 bid_id new_stage notes)
                      bid_id new_stage)
  = S (List.length (stage_rows_named db bid_id new_stage)).
Proof.
  unfold stage_rows_named, stage_rows_of, sql_select; simpl.
  rewrite !filter_filter, filter_app, length_app; simpl.
  rewrite Z.eqb_refl, String.eqb_refl; simpl.
  rewrite filter_sql_update_length by reflexivity; lia.
Qed.

(** X5.  "Update Status" never looks at the stages a bid has been through:
    for a bid that exists, "Won" always goes through and adds one more
    "Awarded" stage row, and "Lost" one more "Lost" row, also when the bid
    already has such a row; only afterwards is that stage off the offer of
    "Transition Stage". *)
Theorem status_outcome_always_opens_stage :
  forall (db : Store) (env : Env) (bid_id : Z) (selected_reason : string),
    In bid_id (map b_id (bids db)) ->
    (exists db',
        manage_bid_process_update_status db env bid_id "Won" selected_reason
        = Done db' /\
        List.length (stage_rows_named db' bid_id "Awarded")
        = S (List.length (stage_rows_named db bid_id "Awarded")) /\
        ~ In "Awarded" (available_stages db' bid_id)) /\
    (exists db',
        manage_bid_process_update_status db env bid_id "Lost" selected_reason
        = Done db' /\
        List.length (stage_rows_named db' bid_id "Lost")
        = S (List.length (stage_rows_named db bid_id "Lost")) /\
        ~ In "Lost" (available_stages db' bid_id)).
Proof.
  intros db env bid_id selected_reason Hin.
  destruct (bid_by_id_exists db bid_id Hin) as [bid [rest Hb]].
  unfold manage_bid_process_update_status; rewrite Hb; simpl.
  split; eexists; (split; [reflexivity|]); split.
  - exact (update_bid_stage_appends_named _ _ _ _ _ _).
  - erewrite available_stages_after_update by reflexivity.
    intros F; apply filter_In in F; destruct F as [_ F].
    rewrite String.eqb_refl in F; discriminate.
  - exact (update_bid_stage_appends_named _ _ _ _ _ _).
  - erewrite available_stages_after_update by reflexivity.
    intros F; apply filter_In in F; destruct F as [_ F].
    rewrite String.eqb_refl in F; discriminate.
Qed.

Lemma status_outcome_always_opens_stage_witness :
  In 1 (map b_id (bids acme_won)) /\
  List.length (stage_rows_named acme_won 1 "Awarded") = 1%nat /\
  exists db',
    manage_bid_process_update_status acme_won (session_at 300) 1 "Won" ""
    = Done db' /\
    List.length (stage_rows_named db' 1 "Awarded") = 2%nat.
Proof.
  assert (Hin : In 1 (map b_id (bids acme_won))) by (left; reflexivity).
  split; [exact Hin | split; [reflexivity|]].
  destruct (proj1 (status_outcome_always_opens_stage acme_won
                     (session_at 300) 1 "" Hin)) as [db' [E [Hl _]]].
  exists db'; split; [exact E | exact Hl].
Defined.

(** ** What "Transition Stage" offers, and where the offer ends *)




(** ** The ledger over a session *)

(** X6.  The ledger is append-only: whatever a session does, the ledger
    rows it found are still there, unchanged and in place, and every row it
    added records a change of the field "status". *)
Theorem ledger_append_only :
  forall (actions : list Action) (db : Store),
  exists added,
    bid_history (run db actions) = bid_history db ++ added /\
    Forall (fun h => h_field_changed h = "status") added.
Proof.
  intros actions db.
  apply (run_preorder
           (fun db db' =>
              exists added,
                bid_history db' = bid_history db ++ added /\
                Forall (fun h => h_field_changed h = "status") added)).
  - intros d; exists []; split; [symmetry; apply app_nil_r | constructor].
  - intros d1 d2 d3 [a1 [E1 F1]] [a2 [E2 F2]]; exists (a1 ++ a2); split.
    + rewrite E2, E1, app_assoc; reflexivity.
    + apply Forall_app; split; assumption.
  - intros d a d' H; perform_cases H; simpl;
      try (exists []; split; [symmetry; apply app_nil_r | constructor]);
      (eexists; split; [reflexivity|]; constructor; [reflexivity|constructor]).
Qed.

Lemma replay_status_app (current : string) (rows : list BidHistory)
      (h : BidHistory) :
  replay_status current (rows ++ [h])
  = match replay_status current rows with
    | Some s => if String.eqb (h_old_value h) s then Some (h_new_value h)
                else None
    | None => None
    end.
Proof.
  revert current; induction rows as [|r rows IH]; intros current; simpl.
  - destruct (String.eqb (h_old_value h) current); reflexivity.
  - destruct (String.eqb (h_old_value r) current); [apply IH | reflexivity].
Qed.

Lemma unique_bid (l : list Bid) (x y : Bid) :
  NoDup (map b_id l) -> In x l -> In y l -> b_id x = b_id y -> x = y.
Proof.
  induction l as [|a l IH]; simpl; intros Hnd Hx Hy E; [contradiction|].
  apply NoDup_cons_iff in Hnd; destruct Hnd as [Ha Hnd].
  destruct Hx as [<-|Hx], Hy as [<-|Hy]; try reflexivity.
  - exfalso; apply Ha; rewrite E; apply in_map, Hy.
  - exfalso; apply Ha; rewrite <- E; apply in_map, Hx.
  - apply IH; assumption.
Qed.

Lemma ledger_consistent_status (db db' : Store) (bid_id : Z) (bid : Bid)
      (rest : list Bid) (set : Bid -> Bid) (new_status : string)
      (k t : Z) (user : string) :
  store_wf db -> ledger_consistent db ->
  bid_by_id db bid_id = bid :: rest ->
  (forall b, b_id (set b) = b_id b) ->
  (forall b, b_status (set b) = new_status) ->
  bids db' = sql_update (fun b => b_id b =? bid_id) set (bids db) ->
  bid_history db'
  = bid_history db ++
      [mkBidHistory k bid_id t user "status" (b_status bid) new_status] ->
  ledger_consistent db'.
Proof.
  intros Hwf Hc Ebid Hid Hst Hb Hh b' Hb'.
  apply bid_by_id_In in Ebid; destruct Ebid as [Hbid Ebid].
  rewrite Hb in Hb'; unfold sql_update in Hb'; apply in_map_iff in Hb'.
  destruct Hb' as [b0 [<- Hb0]].
  unfold ledger_of, sql_select; rewrite Hh, filter_app; simpl.
  destruct (Z.eqb_spec (b_id b0) bid_id) as [E|E].
  - rewrite Hid, E, Z.eqb_refl, replay_status_app; simpl.
    assert (b0 = bid) as ->.
    { apply (unique_bid (bids db));
        [apply sorted_lt_nodup, (wf_ids_sorted db Hwf) | | | congruence];
        assumption. }
    specialize (Hc bid Hbid); unfold ledger_of, sql_select in Hc.
    rewrite Ebid in Hc; rewrite Hc, String.eqb_refl, Hst; reflexivity.
  - destruct (Z.eqb_spec bid_id (b_id b0)); [congruence|].
    rewrite app_nil_r; apply (Hc b0 Hb0).
Qed.

Lemma perform_ledger_consistent (db db' : Store) (a : Action) :
  store_wf db /\ ledger_consistent db -> perform db a = Done db' ->
  store_wf db' /\ ledger_consistent db'.
Proof.
  intros [Hwf Hc] H; split; [eapply perform_wf; eassumption|].
  perform_cases H.
  - intros b Hb; simpl in Hb; apply in_app_or in Hb.
    destruct Hb as [Hb|[<-|[]]]; [apply (Hc b Hb)|]; simpl.
    unfold ledger_of, sql_select; simpl.
    rewrite filter_none; [reflexivity|].
    intros h Hh; apply Z.eqb_neq.
    pose proof (wf_history_ref db Hwf) as Href.
    pose proof (wf_ids_seq db Hwf) as Hseq.
    rewrite Forall_forall in Href, Hseq.
    specialize (Href h Hh); apply in_map_iff in Href.
    destruct Href as [b [E Hb]]; specialize (Hseq b Hb); simpl in Hseq; lia.
  - apply (ledger_consistent_status db _ bid_id bid rest
             (set_status_reason new_status
                (status_reason new_status selected_reason))
             new_status (bid_history_seq db + 1) (now env 0)
             (session_user env)); auto.
  - apply (ledger_consistent_status db _ bid_id bid rest
             (set_status_reason new_status
                (status_reason new_status selected_reason))
             new_status (bid_history_seq db + 1) (now env 0)
             (session_user env)); auto.
  - apply (ledger_consistent_status db _ bid_id bid rest
             (set_status_reason new_status
                (status_reason new_status selected_reason))
             new_status (bid_history_seq db + 1) (now env 0)
             (session_user env)); auto.
  - intros b' Hb'; simpl in Hb'; unfold sql_update in Hb'.
    apply in_map_iff in Hb'; destruct Hb' as [b0 [<- Hb0]].
    replace (ledger_of _ _) with (ledger_of db (b_id b0))
      by (destruct (b_id b0 =? bid_id); reflexivity).
    rewrite (Hc b0 Hb0); destruct (b_id b0 =? bid_id); reflexivity.
Qed.

(** X7.  In every store a session can reach from the empty database, the
    ledger rows of a bid form a chain that starts at "Open" (each row's old
    value is the status the previous row left) and ends at the status the
    bid has now. *)
Theorem ledger_replays_to_status :
  forall (actions : list Action) (b : Bid),
    In b (bids (run empty_store actions)) ->
    replay_status "Open" (ledger_of (run empty_store actions) (b_id b))
    = Some (b_status b).
Proof.
  intros actions.
  apply (run_invariant (fun db => store_wf db /\ ledger_consistent db)).
  - intros db a db'; apply perform_ledger_consistent.
  - split; [exact empty_store_wf | intros b []].
Qed.

Lemma ledger_replays_to_status_witness :
  In (set_status_reason "Open" "" acme_bid) (bids audit_sample) /\
  map (fun h => (h_old_value h, h_new_value h)) (ledger_of audit_sample 1)
  = [("Open", "Submitted"); ("Submitted", "Open")] /\
  replay_status "Open" (ledger_of audit_sample 1) = Some "Open".
Proof.
  assert (H : In (set_status_reason "Open" "" acme_bid) (bids audit_sample))
    by (left; reflexivity).
  split; [exact H | split; [reflexivity|]].
  exact (ledger_replays_to_status _ _ H).
Defined.

(** ** One open stage for every bid *)

Lemma open_count_ext (db1 db2 : Store) (k : Z) :
  bid_stages db1 = bid_stages db2 -> open_count db1 k = open_count db2 k.
Proof. unfold open_count; intros ->; reflexivity. Qed.

Lemma perform_every_bid_open (db db' : Store) (a : Action) :
  store_wf db /\ every_bid_open db -> perform db a = Done db' ->
  store_wf db' /\ every_bid_open db'.
Proof.
  intros [Hwf Ho] H; split; [eapply perform_wf; eassumption|].
  assert (Hupd : forall d now1 now2 bid_id new_stage notes k,
             bid_stages d = bid_stages db ->
             (k <> bid_id -> open_count db k = 1%nat) ->
             open_count (update_bid_stage d now1 now2 bid_id new_stage notes) k
             = 1%nat).
  { intros d now1 now2 bid_id new_stage notes k Hd Hk.
    destruct (Z.eq_dec k bid_id) as [->|Hne].
    - apply open_count_update_same.
    - rewrite open_count_update_other by exact Hne.
      rewrite (open_count_ext d db k Hd); apply Hk, Hne. }
  perform_cases H; intros k Hk; simpl in Hk;
    rewrite ?sql_update_bid_ids in Hk by reflexivity.
  - apply Hupd; [reflexivity|]; intros Hne; apply Ho.
    rewrite map_app in Hk; apply in_app_or in Hk.
    destruct Hk as [Hk|[Hk|[]]]; [exact Hk | simpl in Hk; congruence].
  - apply Hupd; [reflexivity | intros _; apply Ho, Hk].
  - apply Hupd; [reflexivity | intros _; apply Ho, Hk].
  - rewrite <- (Ho k Hk); apply open_count_ext; reflexivity.
  - erewrite open_count_ext;
      [apply (Hupd db (now env 0) (now env 1) bid_id new_stage notes k
                eq_refl); intros _; apply Ho, Hk
      | reflexivity].
Qed.

Lemma reachable_every_bid_open (actions : list Action) :
  store_wf (run empty_store actions) /\
  every_bid_open (run empty_store actions).
Proof.
  apply (run_invariant (fun db => store_wf db /\ every_bid_open db)).
  - intros db a db'; apply perform_every_bid_open.
  - split; [exact empty_store_wf | intros k []].
Qed.

(** X8.  In every store a session can reach from the empty database, every
    bid of the table has exactly one stage row with [completed_at] NULL:
    never none, never two. *)
Theorem every_bid_has_one_open_stage :
  forall (actions : list Action) (b : Bid),
    In b (bids (run empty_store actions)) ->
    exists r,
      filter (open_stage_of (b_id b)) (bid_stages (run empty_store actions))
      = [r].
Proof.
  intros actions b Hb.
  destruct (reachable_every_bid_open actions) as [_ Ho].
  specialize (Ho (b_id b) (in_map b_id _ _ Hb)); unfold open_count in Ho.
  destruct (filter (open_stage_of (b_id b))
                   (bid_stages (run empty_store actions)))
    as [|r [|r' l]]; try discriminate Ho.
  exists r; reflexivity.
Qed.

Lemma every_bid_has_one_open_stage_witness :
  In (set_status_reason "Won" "" acme_bid) (bids acme_won) /\
  exists r, filter (open_stage_of 1) (bid_stages acme_won) = [r].
Proof.
  assert (H : In (set_status_reason "Won" "" acme_bid) (bids acme_won))
    by (left; reflexivity).
  split; [exact H|].
  exact (every_bid_has_one_open_stage
           [CreateBid (session_at 100) "Acme Deal" "" "Acme Corp" no_value 10
                      "Jane";
            UpdateStatus (session_at 200) 1 "Won" ""] _ H).
Defined.

(** ** Active stages in the sidebar *)

Lemma filter_map_commute {A B : Type} (g : A -> B) (p : B -> bool)
      (l : list A) :
  filter p (map g l) = map g (filter (fun x => p (g x)) l).
Proof.
  induction l as [|x l IH]; simpl; [reflexivity|].
  destruct (p (g x)); simpl; [f_equal|]; exact IH.
Qed.

(** With well-formed tables the join pairs every stage row with its bid. *)
Lemma join_stage_bid_total (db : Store) :
  store_wf db ->
  exists bid_of : BidStage -> Bid,
    join_stage_bid (bid_stages db) (bids db)
    = map (fun r => (r, bid_of r)) (bid_stages db) /\
    forall r, In r (bid_stages db) ->
              In (bid_of r) (bids db) /\ b_id (bid_of r) = bs_bid_id r.
Proof.
  intros [Hs _ Href _].
  exists (fun r => hd (mkBid 0 "" "" "" "" 0 "" "" 0 "" no_value None)
                      (filter (fun b => bs_bid_id r =? b_id b) (bids db))).
  assert (Hone : forall r, In r (bid_stages db) ->
                           exists b, filter (fun b => bs_bid_id r =? b_id b)
                                            (bids db) = [b]).
  { intros r Hr; rewrite Forall_forall in Href.
    apply join_picks_one; [apply sorted_lt_nodup, Hs | apply Href, Hr]. }
  split.
  - unfold join_stage_bid; clear Href; revert Hone.
    induction (bid_stages db) as [|r rows IH]; simpl; intros Hone;
      [reflexivity|].
    rewrite IH by (intros r' Hr'; apply Hone; right; exact Hr').
    destruct (Hone r (or_introl eq_refl)) as [b ->]; reflexivity.
  - intros r Hr; destruct (Hone r Hr) as [b Hb]; rewrite Hb; simpl.
    assert (Hin : In b (filter (fun b => bs_bid_id r =? b_id b) (bids db)))
      by (rewrite Hb; left; reflexivity).
    apply filter_In in Hin; destruct Hin as [Hin E].
    apply Z.eqb_eq in E; split; [exact Hin | symmetry; exact E].
Qed.

Lemma open_rows_nodup (rows : list BidStage) :
  (forall k, (List.length (filter (open_stage_of k) rows) <= 1)%nat) ->
  NoDup (map bs_bid_id
             (filter (fun r => is_null (bs_completed_at r)) rows)).
Proof.
  induction rows as [|r rows IH]; simpl; intros H; [constructor|].
  assert (Htail : forall k,
             (List.length (filter (open_stage_of k) rows) <= 1)%nat).
  { intros k; specialize (H k); destruct (open_stage_of k r); simpl in H;
      lia. }
  destruct (is_null (bs_completed_at r)) eqn:E; simpl; [|apply IH, Htail].
  constructor; [|apply IH, Htail].
  intros Hin; apply in_map_iff in Hin; destruct Hin as [r' [Eb Hr']].
  apply filter_In in Hr'; destruct Hr' as [Hr' Eo].
  specialize (H (bs_bid_id r)); unfold open_stage_of at 1 in H.
  rewrite Z.eqb_refl, E in H; simpl in H.
  assert (Hin : In r' (filter (open_stage_of (bs_bid_id r)) rows)).
  { apply filter_In; split; [exact Hr'|].
    unfold open_stage_of; rewrite Eb, Z.eqb_refl, Eo; reflexivity. }
  destruct (filter (open_stage_of (bs_bid_id r)) rows);
    [contradiction | simpl in H; lia].
Qed.

Lemma open_row_exists (rows : list BidStage) (k : Z) :
  In k (map bs_bid_id (filter (fun r => is_null (bs_completed_at r)) rows))
  <-> exists r, In r (filter (open_stage_of k) rows).
Proof.
  rewrite in_map_iff; split.
  - intros [r [E Hr]]; apply filter_In in Hr; destruct Hr as [Hr Eo].
    exists r; apply filter_In; split; [exact Hr|].
    unfold open_stage_of; rewrite E, Z.eqb_refl, Eo; reflexivity.
  - intros [r Hr]; apply filter_In in Hr; destruct Hr as [Hr Eo].
    unfold open_stage_of in Eo; apply andb_true_iff in Eo.
    destruct Eo as [E Eo]; apply Z.eqb_eq in E.
    exists r; split; [exact E | apply filter_In; split; assumption].
Qed.

(** X9.  In every store a session can reach from the empty database, the
    "Active Stages" query lists every bid exactly once, and the row of a bid
    shows the bid's title with the stage and owner of its one open stage
    row. *)
Theorem stage_notifications_one_per_bid :
  forall (actions : list Action),
    Permutation
      (map (fun row => fst (fst (fst row)))
           (show_stage_notifications (run empty_store actions)))
      (map b_id (bids (run empty_store actions))) /\
    forall (id : Z) (title stage_name owner : string),
      In (id, title, stage_name, owner)
         (show_stage_notifications (run empty_store actions)) ->
      exists b r,
        In b (bids (run empty_store actions)) /\ b_id b = id /\
        b_title b = title /\
        filter (open_stage_of id) (bid_stages (run empty_store actions))
        = [r] /\
        bs_stage r = stage_name /\ bs_stage_owner r = owner.
Proof.
  intros actions.
  destruct (reachable_every_bid_open actions) as [Hwf Ho].
  pose proof (reachable_single_open actions) as Hs.
  set (db := run empty_store actions) in *.
  destruct (join_stage_bid_total db Hwf) as [bid_of [Ej Hb]].
  assert (En : show_stage_notifications db
               = map (fun r => (bs_bid_id r, b_title (bid_of r), bs_stage r,
                                bs_stage_owner r))
                     (filter (fun r => is_null (bs_completed_at r))
                             (bid_stages db))).
  { unfold show_stage_notifications, sql_select.
    rewrite Ej, filter_map_commute, map_map; reflexivity. }
  rewrite En; split.
  - rewrite map_map; simpl.
    apply NoDup_Permutation.
    + apply open_rows_nodup; intros k; apply (Hs k).
    + apply sorted_lt_nodup, (wf_ids_sorted db Hwf).
    + intros k; rewrite open_row_exists; split.
      * intros [r Hr]; apply filter_In in Hr; destruct Hr as [Hr Eo].
        unfold open_stage_of in Eo; apply andb_true_iff in Eo.
        destruct Eo as [E _]; apply Z.eqb_eq in E; subst k.
        pose proof (wf_stages_ref db Hwf) as Href.
        rewrite Forall_forall in Href; apply Href, Hr.
      * intros Hk; specialize (Ho k Hk); unfold open_count in Ho.
        destruct (filter (open_stage_of k) (bid_stages db)) as [|r l];
          [discriminate Ho | exists r; left; reflexivity].
  - intros id title stage_name owner Hin.
    apply in_map_iff in Hin; destruct Hin as [r [E Hr]].
    injection E as <- <- <- <-.
    apply filter_In in Hr; destruct Hr as [Hr Eo].
    destruct (Hb r Hr) as [Hbid Eid].
    exists (bid_of r), r; repeat split; try assumption.
    assert (Hin : In r (filter (open_stage_of (bs_bid_id r))
                               (bid_stages db))).
    { apply filter_In; split; [exact Hr|].
      unfold open_stage_of; rewrite Z.eqb_refl, Eo; reflexivity. }
    specialize (Ho (bs_bid_id r)); unfold open_count in Ho.
    rewrite <- Eid in Ho at 1.
    specialize (Ho (in_map b_id _ _ Hbid)).
    destruct (filter (open_stage_of (bs_bid_id r)) (bid_stages db))
      as [|r0 [|r1 l]]; try discriminate Ho.
    destruct Hin as [->|[]]; reflexivity.
Qed.

(** ** Only registry stages are ever stored *)

Lemma registry_owner_assigned (s : string) :
  In s BID_STAGES_keys -> stage_owner_for s <> "Unassigned".
Proof.
  unfold BID_STAGES_keys; simpl; intros H.
  repeat (destruct H as [<-|H]; [discriminate|]); contradiction.
Qed.

Lemma update_bid_stage_registered db now1 now2 bid_id new_stage notes :
  In new_stage BID_STAGES_keys ->
  Forall (fun r => In (bs_stage r) BID_STAGES_keys /\
                   bs_stage_owner r = stage_owner_for (bs_stage r))
         (bid_stages db) ->
  Forall (fun r => In (bs_stage r) BID_STAGES_keys /\
                   bs_stage_owner r = stage_owner_for (bs_stage r))
         (bid_stages (update_bid_stage db now1 now2 bid_id new_stage notes)).
Proof.
  intros Hkey H; simpl; apply Forall_app; split.
  - rewrite Forall_forall in H |- *.
    intros r Hr; unfold sql_update in Hr; apply in_map_iff in Hr.
    destruct Hr as [r0 [<- Hr0]].
    destruct (open_stage_of bid_id r0); simpl; apply H, Hr0.
  - constructor; [split; [exact Hkey | reflexivity] | constructor].
Qed.

Lemma perform_stages_registered (db db' : Store) (a : Action) :
  stages_registered db -> perform db a = Done db' -> stages_registered db'.
Proof.
  intros [Hs Hb] H.
  assert (Hset : forall cond set,
             (forall b, In (b_stage b) BID_STAGES_keys ->
                        In (b_stage (set b)) BID_STAGES_keys) ->
             Forall (fun b => In (b_stage b) BID_STAGES_keys)
                    (sql_update cond set (bids db))).
  { intros cond set Hk; rewrite Forall_forall in Hb |- *.
    intros b Hin; unfold sql_update in Hin; apply in_map_iff in Hin.
    destruct Hin as [b0 [<- Hb0]].
    destruct (cond b0); [apply Hk|]; apply Hb, Hb0. }
  perform_cases H; split; simpl;
    try (apply update_bid_stage_registered; [|exact Hs]);
    try (apply Hset; intros b Hk; exact Hk);
    try exact Hs.
  - left; reflexivity.
  - apply Forall_app; split; [exact Hb|].
    constructor; [left; reflexivity | constructor].
  - do 5 right; left; reflexivity.
  - do 6 right; left; reflexivity.
  - apply string_in_In, available_stages_In in Eoffer; apply Eoffer.
  - apply Hset; intros b _; simpl.
    apply string_in_In, available_stages_In in Eoffer; apply Eoffer.
Qed.

(** X10.  In every store a session can reach from the empty database, every
    stage row names a registry stage and carries the owner the registry
    gives for it, so the fallback owner "Unassigned" is never stored; and
    [bids.stage] names a registry stage too. *)
Theorem stored_stages_are_registry_stages :
  forall (actions : list Action),
    Forall (fun r => In (bs_stage r) BID_STAGES_keys /\
                     bs_stage_owner r = stage_owner_for (bs_stage r) /\
                     bs_stage_owner r <> "Unassigned")
           (bid_stages (run empty_store actions)) /\
    Forall (fun b => In (b_stage b) BID_STAGES_keys)
           (bids (run empty_store actions)).
Proof.
  intros actions.
  assert (H : stages_registered (run empty_store actions)).
  { apply (run_invariant stages_registered).
    - intros db a db'; apply perform_stages_registered.
    - split; constructor. }
  destruct H as [Hs Hb]; split; [|exact Hb].
  eapply Forall_impl; [|exact Hs]; simpl.
  intros r [Hk Ho]; split; [exact Hk | split; [exact Ho|]].
  rewrite Ho; apply registry_owner_assigned, Hk.
Qed.

(** ** What a session never rewrites *)

(** X11.  No session deletes a bid or rewrites what the creation form
    entered: every bid row found at some position of the table is still at
    that position afterwards, with the same id, title, description, due
    date, assignee, creator, creation time, client name and value. *)
Theorem bid_core_columns_never_change :
  forall (actions : list Action) (db : Store) (n : nat) (b : Bid),
    nth_error (bids db) n = Some b ->
    exists b', nth_error (bids (run db actions)) n = Some b' /\
               same_core b b'.
Proof.
  intros actions db.
  apply (run_preorder
           (fun db db' =>
              forall n b, nth_error (bids db) n = Some b ->
                          exists b', nth_error (bids db') n = Some b' /\
                                     same_core b b')).
  - intros d n b H; exists b; split; [exact H|].
    unfold same_core; repeat split.
  - intros d1 d2 d3 H12 H23 n b H.
    destruct (H12 n b H) as [b2 [E2 S2]].
    destruct (H23 n b2 E2) as [b3 [E3 S3]].
    exists b3; split; [exact E3|].
    unfold same_core in *; intuition congruence.
  - intros d a d' H.
    assert (Hupd : forall cond set n b,
               (forall x, same_core x (set x)) ->
               nth_error (bids d) n = Some b ->
               exists b', nth_error (sql_update cond set (bids d)) n
                          = Some b' /\ same_core b b').
    { intros cond set n b Hset E; unfold sql_update.
      rewrite nth_error_map, E; simpl; eexists; split; [reflexivity|].
      destruct (cond b); [apply Hset | unfold same_core; repeat split]. }
    perform_cases H; intros n b E; simpl;
      try (apply Hupd; [intros x; unfold same_core; repeat split | exact E]).
    exists b; split; [|unfold same_core; repeat split].
    rewrite nth_error_app1; [exact E|].
    apply nth_error_Some; rewrite E; discriminate.
Qed.

Lemma bid_core_columns_never_change_witness :
  nth_error (bids acme_created) 0 = Some acme_bid /\
  exists b',
    nth_error
      (bids (run acme_created
               [UpdateStatus (session_at 200) 1 "Lost" "Other";
                TransitionStage (session_at 300) 1 "Evaluation" ""])) 0
    = Some b' /\ same_core acme_bid b'.
Proof.
  assert (H : nth_error (bids acme_created) 0 = Some acme_bid)
    by reflexivity.
  split; [exact H|].
  exact (bid_core_columns_never_change _ _ _ _ H).
Defined.

(** X12.  No session deletes or rewrites a stage row: every stage row found
    at some position is still there afterwards with the same id, bid,
    stage, owner, start time and notes, and a row that was completed is
    exactly as it was; the only change a stage row ever sees is being
    completed once. *)
Theorem stage_rows_are_completed_once :
  forall (actions : list Action) (db : Store) (n : nat) (r : BidStage),
    nth_error (bid_stages db) n = Some r ->
    exists r', nth_error (bid_stages (run db actions)) n = Some r' /\
               stage_row_kept r r'.
Proof.
  intros actions db.
  apply (run_preorder
           (fun db db' =>
              forall n r, nth_error (bid_stages db) n = Some r ->
                          exists r', nth_error (bid_stages db') n = Some r' /\
                                     stage_row_kept r r')).
  - intros d n r H; exists r; split; [exact H|].
    unfold stage_row_kept; repeat split.
  - intros d1 d2 d3 H12 H23 n r H.
    destruct (H12 n r H) as [r2 [E2 S2]].
    destruct (H23 n r2 E2) as [r3 [E3 S3]].
    exists r3; split; [exact E3|].
    unfold stage_row_kept in *.
    destruct S2 as [A1 [A2 [A3 [A4 [A5 [A6 A7]]]]]].
    destruct S3 as [B1 [B2 [B3 [B4 [B5 [B6 B7]]]]]].
    repeat split; try congruence.
    intros Hc; specialize (A7 Hc); subst r2; apply B7, Hc.
  - intros d a d' H.
    assert (Hupd : forall d0 now1 now2 bid_id new_stage notes n r,
               bid_stages d0 = bid_stages d ->
               nth_error (bid_stages d) n = Some r ->
               exists r',
                 nth_error
                   (bid_stages
                      (update_bid_stage d0 now1 now2 bid_id new_stage notes))
                   n = Some r' /\ stage_row_kept r r').
    { intros d0 now1 now2 bid_id new_stage notes n r Hd E; simpl.
      rewrite Hd, nth_error_app1
        by (unfold sql_update; rewrite length_map;
            apply nth_error_Some; rewrite E; discriminate).
      unfold sql_update; rewrite nth_error_map, E; simpl.
      eexists; split; [reflexivity|].
      unfold stage_row_kept.
      destruct (open_stage_of bid_id r) eqn:Eo; simpl; repeat split.
      intros Hc; unfold open_stage_of in Eo; apply andb_true_iff in Eo.
      destruct Eo as [_ Eo]; destruct (bs_completed_at r);
        [discriminate Eo | contradiction]. }
    perform_cases H; intros n r E;
      try (apply Hupd; [reflexivity | exact E]).
    exists r; split; [exact E | unfold stage_row_kept; repeat split].
Qed.

Lemma stage_rows_are_completed_once_witness :
  nth_error (bid_stages acme_created) 0
  = Some (mkBidStage 1 1 "Proposal Drafting" "Proposal Manager" 102 None
                     "Bid created") /\
  exists r',
    nth_error (bid_stages acme_in_legal) 0 = Some r' /\
    stage_row_kept
      (mkBidStage 1 1 "Proposal Drafting" "Proposal Manager" 102 None
                  "Bid created") r'.
Proof.
  assert (H : nth_error (bid_stages acme_created) 0
              = Some (mkBidStage 1 1 "Proposal Drafting" "Proposal Manager"
                                 102 None "Bid created")) by reflexivity.
  split; [exact H|].
  exact (stage_rows_are_completed_once
           [TransitionStage (session_at 200) 1 "Legal Review" "ready"]
           _ _ _ H).
Defined.

(** ** The loss reason *)

Lemma perform_reason_matches_status (db db' : Store) (a : Action) :
  reason_matches_status db -> perform db a = Done db' ->
  reason_matches_status db'.
Proof.
  unfold reason_matches_status; intros Hr H.
  assert (Hstatus : forall new_status selected_reason bid_id,
             Forall (fun b => (b_status b = "Lost" -> b_reason b <> None) /\
                              (b_status b <> "Lost" ->
                               b_reason b = None \/ b_reason b = Some ""))
                    (sql_update (fun b => b_id b =? bid_id)
                       (set_status_reason new_status
                          (status_reason new_status selected_reason))
                       (bids db))).
  { intros new_status selected_reason bid_id.
    rewrite Forall_forall in Hr |- *.
    intros b Hb; unfold sql_update in Hb; apply in_map_iff in Hb.
    destruct Hb as [b0 [<- Hb0]].
    destruct (b_id b0 =? bid_id); [|apply Hr, Hb0]; simpl.
    split; [discriminate|].
    intros Hne; right; unfold status_reason.
    destruct (String.eqb_spec new_status "Lost"); [contradiction|].
    reflexivity. }
  perform_cases H; simpl; try apply Hstatus.
  - apply Forall_app; split; [exact Hr|].
    constructor; [|constructor]; simpl.
    split; [discriminate | left; reflexivity].
  - rewrite Forall_forall in Hr |- *.
    intros b Hb; unfold sql_update in Hb; apply in_map_iff in Hb.
    destruct Hb as [b0 [<- Hb0]].
    destruct (b_id b0 =? bid_id); apply (Hr b0 Hb0).
Qed.

(** X13.  In every store a session can reach from the empty database, a
    bid whose status is "Lost" has a reason stored, and a bid with any
    other status has no reason or the empty one: a loss reason never
    outlives the status "Lost". *)
Theorem loss_reason_goes_with_lost_status :
  forall (actions : list Action),
    Forall (fun b => (b_status b = "Lost" -> b_reason b <> None) /\
                     (b_status b <> "Lost" ->
                      b_reason b = None \/ b_reason b = Some ""))
           (bids (run empty_store actions)).
Proof.
  intros actions.
  apply (run_invariant reason_matches_status).
  - intros db a db'; apply perform_reason_matches_status.
  - constructor.
Qed.

(** ** Reminders after a write *)

Lemma reminders_In (db : Store) (today : Z) (id : Z) (title : string)
      (due : Z) :
  In (id, title, due) (show_deadline_reminders db today) <->
  exists b, In b (bids db) /\ b_id b = id /\ b_title b = title /\
            b_due_date b = due /\ b_status b = "Open" /\
            b_due_date b <= today + 3.
Proof.
  unfold show_deadline_reminders, sql_select; rewrite in_map_iff; split.
  - intros [b [E Hb]]; injection E as <- <- <-.
    apply filter_In in Hb; destruct Hb as [Hb Hc].
    apply andb_true_iff in Hc; destruct Hc as [Hd Hs].
    apply Z.leb_le in Hd; apply String.eqb_eq in Hs.
    exists b; repeat split; assumption.
  - intros [b [Hb [<- [<- [<- [Hs Hd]]]]]]; exists b; split; [reflexivity|].
    apply filter_In; split; [exact Hb|].
    apply andb_true_iff; split; [apply Z.leb_le, Hd|].
    apply String.eqb_eq, Hs.
Qed.

Lemma update_status_goes_through (db : Store) (env : Env) (bid_id : Z)
      (new_status selected_reason : string) (bid : Bid) (rest : list Bid) :
  bid_by_id db bid_id = bid :: rest ->
  exists db',
    manage_bid_process_update_status db env bid_id new_status selected_reason
    = Done db' /\
    bids db'
    = sql_update (fun b => b_id b =? bid_id)
                 (set_status_reason new_status
                    (status_reason new_status selected_reason))
                 (bids db).
Proof.
  intros Ebid; unfold manage_bid_process_update_status; rewrite Ebid.
  destruct (String.eqb new_status "Won");
    [|destruct (String.eqb new_status "Lost")];
    eexists; split; reflexivity.
Qed.

(** X14.  Right after "Update Status" on a bid of a well-formed store, the
    deadline reminders list that bid exactly when the new status is "Open"
    and the bid is due within three days of today; any other status takes
    the bid off the reminders, whatever its due date. *)
Theorem status_change_drives_reminder :
  forall (db : Store) (env : Env) (bid_id : Z)
         (new_status selected_reason : string) (today : Z)
         (bid : Bid) (rest : list Bid),
    store_wf db ->
    bid_by_id db bid_id = bid :: rest ->
    forall (title : string) (due : Z),
      In (bid_id, title, due)
         (show_deadline_reminders
            (step db (UpdateStatus env bid_id new_status selected_reason))
            today) <->
      new_status = "Open" /\ title = b_title bid /\ due = b_due_date bid /\
      b_due_date bid <= today + 3.
Proof.
  intros db env bid_id new_status selected_reason today bid rest Hwf Ebid
         title due.
  destruct (update_status_goes_through db env bid_id new_status
              selected_reason bid rest Ebid) as [db' [E Hb]].
  unfold step; simpl; rewrite E.
  apply bid_by_id_In in Ebid; destruct Ebid as [Hbid Eid].
  rewrite reminders_In, Hb; split.
  - intros [b' [Hin [Hid [Ht [Hd [Hs Hle]]]]]].
    unfold sql_update in Hin; apply in_map_iff in Hin.
    destruct Hin as [b0 [<- Hb0]].
    destruct (Z.eqb_spec (b_id b0) bid_id) as [E0|E0];
      [|contradiction].
    assert (b0 = bid) as ->.
    { apply (unique_bid (bids db));
        [apply sorted_lt_nodup, (wf_ids_sorted db Hwf) | | | congruence];
        assumption. }
    simpl in *; repeat split; auto.
  - intros [-> [-> [-> Hle]]].
    exists (set_status_reason "Open" (status_reason "Open" selected_reason)
                              bid).
    split; [|simpl; repeat split; auto].
    unfold sql_update; apply in_map_iff; exists bid.
    rewrite Eid, Z.eqb_refl; split; [reflexivity | exact Hbid].
Qed.

Lemma status_change_drives_reminder_witness :
  store_wf acme_created /\
  bid_by_id acme_created 1 = [acme_bid] /\
  In (1, "Acme Deal", 10) (show_deadline_reminders acme_created 8) /\
  ~ In (1, "Acme Deal", 10)
       (show_deadline_reminders
          (step acme_created (UpdateStatus (session_at 200) 1 "Won" "")) 8) /\
  In (1, "Acme Deal", 10)
     (show_deadline_reminders
        (step acme_won (UpdateStatus (session_at 300) 1 "Open" "")) 8).
Proof.
  assert (Hwf : store_wf acme_created).
  { constructor; simpl; repeat (constructor; simpl; try lia; auto). }
  assert (Hwf' : store_wf acme_won).
  { constructor; simpl; repeat (constructor; simpl; try lia; auto). }
  assert (Hb : bid_by_id acme_created 1 = [acme_bid]) by reflexivity.
  assert (Hb' : bid_by_id acme_won 1 = [set_status_reason "Won" "" acme_bid])
    by reflexivity.
  split; [exact Hwf | split; [exact Hb | split; [left; reflexivity|]]].
  split.
  - intros F.
    apply (status_change_drives_reminder acme_created (session_at 200) 1
             "Won" "" 8 acme_bid [] Hwf Hb) in F.
    destruct F as [F _]; discriminate F.
  - apply (status_change_drives_reminder acme_won (session_at 300) 1
             "Open" "" 8 _ [] Hwf' Hb').
    simpl; repeat split; lia.
Defined.

(** X15.  Right after a bid is created on a well-formed store, the deadline
    reminders list it, under its new id with its title and due date,
    exactly when it is due within three days of today; a due date already
    past counts as well. *)
Theorem created_bid_is_reminded_when_due :
  forall (db : Store) (env : Env) (title description client_name : string)
         (bid_value : Q) (due_date : Z) (assigned_to : string) (today : Z),
    store_wf db ->
    title <> "" -> client_name <> "" -> assigned_to <> "" ->
    forall (t : string) (d : Z),
      In (bids_seq db + 1, t, d)
         (show_deadline_reminders
            (step db (CreateBid env title description client_name bid_value
                                due_date assigned_to)) today) <->
      t = title /\ d = due_date /\ due_date <= today + 3.
Proof.
  intros db env title description client_name bid_value due_date assigned_to
         today Hwf Ht Hc Ha t d.
  unfold step; simpl; unfold create_bid.
  rewrite (is_empty_false _ Ht), (is_empty_false _ Hc),
    (is_empty_false _ Ha); simpl.
  rewrite reminders_In; simpl; split.
  - intros [b [Hin [Hid [Htitle [Hdue [_ Hle]]]]]].
    apply in_app_or in Hin; destruct Hin as [Hin|[<-|[]]].
    + pose proof (wf_ids_seq db Hwf) as Hseq.
      rewrite Forall_forall in Hseq; specialize (Hseq b Hin).
      simpl in Hseq; lia.
    + simpl in *; repeat split; auto.
  - intros [-> [-> Hle]]; eexists; split;
      [apply in_or_app; right; left; reflexivity|].
    simpl; repeat split; exact Hle.
Qed.

Lemma created_bid_is_reminded_when_due_witness :
  store_wf empty_store /\
  In (1, "Acme Deal", 10)
     (show_deadline_reminders acme_created 7) /\
  ~ In (1, "Acme Deal", 10)
       (show_deadline_reminders acme_created 6).
Proof.
  assert (Hwf : store_wf empty_store) by (constructor; simpl; constructor).
  split; [exact Hwf|].
  pose proof (created_bid_is_reminded_when_due empty_store (session_at 100)
                "Acme Deal" "" "Acme Corp" no_value 10 "Jane") as H.
  split.
  - apply (H 7 Hwf); try discriminate; repeat split; lia.
  - intros F; apply (H 6 Hwf) in F; try discriminate.
    destruct F as [_ [_ F]]; lia.
Defined.

(** ** The schema update *)

Lemma existsb_false {A : Type} (f : A -> bool) (l : list A) (x : A) :
  existsb f l = false -> In x l -> f x = false.
Proof.
  intros H Hx; destruct (f x) eqn:E; [|reflexivity].
  rewrite <- H; symmetry; apply existsb_exists; exists x; auto.
Qed.

Lemma has_column_app (schema extra : list string) (c : string) :
  has_column (schema ++ extra) c = has_column schema c || has_column extra c.
Proof. unfold has_column; apply existsb_app. Qed.

Lemma new_columns_distinct :
  StronglySorted (fun a b => same_column b a = false) new_columns.
Proof. repeat constructor. Qed.

Lemma new_columns_nodup : NoDup new_columns.
Proof.
  unfold new_columns.
  repeat (constructor;
          [simpl; intros F;
           repeat (destruct F as [F|F]; [discriminate F|]); exact F|]).
  constructor.
Qed.

Section SchemaProofs.
Variable max_columns : nat.
Variable columns : list string.

Lemma add_missing_columns_present (to_add schema : list string) :
  (forall c, In c to_add -> string_in c columns = true) ->
  add_missing_columns max_columns columns to_add schema
  = SchemaUpdated schema.
Proof.
  induction to_add as [|c rest IH]; simpl; intros H; [reflexivity|].
  rewrite (H c (or_introl eq_refl)); apply IH.
  intros c' Hc'; apply H; right; exact Hc'.
Qed.

Lemma add_missing_columns_ok (to_add : list string) :
  StronglySorted (fun a b => same_column b a = false) to_add ->
  forall schema,
    (forall c, In c to_add -> string_in c columns = false ->
               has_column schema c = false) ->
    (List.length schema
     + List.length (filter (fun c => negb (string_in c columns)) to_add)
     <= max_columns)%nat ->
    add_missing_columns max_columns columns to_add schema
    = SchemaUpdated
        (schema ++ filter (fun c => negb (string_in c columns)) to_add).
Proof.
  induction 1 as [|c rest Hs IH Hc]; intros schema Hfree Hroom; simpl.
  - rewrite app_nil_r; reflexivity.
  - simpl in Hroom.
    destruct (string_in c columns) eqn:E; simpl in *.
    + apply IH; [|exact Hroom].
      intros c' Hc' E'; apply Hfree; [right; exact Hc' | exact E'].
    + unfold alter_table_add_column.
      rewrite (Hfree c (or_introl eq_refl) E), orb_false_r.
      destruct (Nat.leb_spec max_columns (List.length schema)); [lia|].
      rewrite IH.
      * rewrite <- app_assoc; reflexivity.
      * intros c' Hc' E'; rewrite has_column_app.
        rewrite (Hfree c' (or_intror Hc') E'); simpl.
        rewrite Forall_forall in Hc; rewrite (Hc c' Hc'); reflexivity.
      * rewrite length_app; simpl; lia.
Qed.

Lemma add_missing_columns_clash (to_add : list string) :
  forall extra,
    (exists c, In c to_add /\ string_in c columns = false /\
               has_column columns c = true) ->
    exists added,
      add_missing_columns max_columns columns to_add (columns ++ extra)
      = OperationalError (columns ++ added).
Proof.
  induction to_add as [|c0 rest IH]; intros extra [c [Hin [Eabs Ehas]]];
    [contradiction|]; simpl.
  destruct (string_in c0 columns) eqn:E0.
  - apply IH; exists c; split; [|split; assumption].
    destruct Hin as [->|Hin]; [congruence | exact Hin].
  - unfold alter_table_add_column.
    destruct ((max_columns <=? List.length (columns ++ extra))%nat
              || has_column (columns ++ extra) c0) eqn:Ealter.
    + exists extra; reflexivity.
    + rewrite <- app_assoc; apply IH.
      exists c; split; [|split; assumption].
      destruct Hin as [->|Hin]; [|exact Hin].
      apply orb_false_iff in Ealter; destruct Ealter as [_ Ealter].
      rewrite has_column_app, Ehas in Ealter; discriminate.
Qed.
End SchemaProofs.

(** X16.  On a table that has no column differing from client_name,
    bid_value, reason or stage only by the case of its letters, and that has
    room for the missing ones, [update_database_schema] returns with the
    columns it found, in their order, followed by the missing ones:
    afterwards all four are there, names that were distinct stay distinct,
    and running it again returns without a change.  On a table that has such
    a column (say "Stage") it raises OperationalError, keeping the columns
    it found and those it had added by then.  On the columns that CREATE
    TABLE declares it returns without a change. *)
Theorem update_database_schema_completes_once :
  forall (max_columns : nat) (schema : list string),
    (case_clash schema = false ->
     (List.length (schema ++ missing_columns schema) <= max_columns)%nat ->
     update_database_schema max_columns schema
     = SchemaUpdated (schema ++ missing_columns schema) /\
     (forall c, In c (missing_columns schema) ->
                ~ In c schema /\ In c new_columns) /\
     (forall c, In c new_columns ->
                In c (schema ++ missing_columns schema)) /\
     (NoDup schema -> NoDup (schema ++ missing_columns schema)) /\
     update_database_schema max_columns (schema ++ missing_columns schema)
     = SchemaUpdated (schema ++ missing_columns schema)) /\
    (case_clash schema = true ->
     exists added,
       update_database_schema max_columns schema
       = OperationalError (schema ++ added)) /\
    update_database_schema max_columns bids_columns
    = SchemaUpdated bids_columns.
Proof.
  intros max_columns schema.
  assert (Hadded : forall c, In c (missing_columns schema) ->
                             ~ In c schema /\ In c new_columns).
  { intros c Hc; apply filter_In in Hc; destruct Hc as [Hc Hn].
    split; [|exact Hc].
    apply negb_true_iff in Hn; intros F; apply string_in_In in F.
    rewrite F in Hn; discriminate. }
  assert (Hall : forall c, In c new_columns ->
                           In c (schema ++ missing_columns schema)).
  { intros c Hc; apply in_or_app.
    destruct (string_in c schema) eqn:E.
    - left; apply string_in_In, E.
    - right; apply filter_In; split; [exact Hc | rewrite E; reflexivity]. }
  split; [|split; [|reflexivity]].
  - intros Hclash Hroom.
    split; [|split; [exact Hadded | split; [exact Hall | split]]].
    + unfold update_database_schema, missing_columns.
      apply add_missing_columns_ok.
      * exact new_columns_distinct.
      * intros c Hc E.
        pose proof (existsb_false _ _ c Hclash Hc) as F; simpl in F.
        rewrite E in F; exact F.
      * rewrite length_app in Hroom; exact Hroom.
    + intros Hnd; apply NoDup_app;
        [exact Hnd | apply NoDup_filter, new_columns_nodup|].
      intros c Hc F; apply Hadded in F; destruct F as [F _]; exact (F Hc).
    + unfold update_database_schema; apply add_missing_columns_present.
      intros c Hc; apply string_in_In, Hall, Hc.
  - intros Hclash; unfold case_clash in Hclash.
    apply existsb_exists in Hclash; destruct Hclash as [c [Hc Hbad]].
    apply andb_true_iff in Hbad; destruct Hbad as [Habs Hhas].
    apply negb_true_iff in Habs.
    destruct (add_missing_columns_clash max_columns schema new_columns []
                (ex_intro _ c (conj Hc (conj Habs Hhas)))) as [added E].
    rewrite app_nil_r in E; exists added; exact E.
Qed.

Example update_database_schema_old_table :
  update_database_schema 2000
    ["id"; "title"; "description"; "status"; "due_date"; "assigned_to";
     "created_by"; "created_at"; "bid_value"]
  = SchemaUpdated
      ["id"; "title"; "description"; "status"; "due_date"; "assigned_to";
       "created_by"; "created_at"; "bid_value"; "client_name"; "reason";
       "stage"].
Proof. reflexivity. Qed.

Example update_database_schema_case_clash :
  case_clash ["id"; "title"; "Stage"] = true /\
  update_database_schema 2000 ["id"; "title"; "Stage"]
  = OperationalError
      ["id"; "title"; "Stage"; "client_name"; "bid_value"; "reason"].
Proof. split; reflexivity. Qed.

(** ** The document manager *)

Lemma upload_to_sharepoint_documents (t : DocumentsTable) (uploaded_at : Z)
      (document_name : string) (bid_id : Z) :
  documents (fst (upload_to_sharepoint t uploaded_at document_name bid_id))
  = documents t ++
      [mkDocument (documents_seq t + 1) bid_id document_name
         (String.append "https://sharepoint.example.com/" document_name)
         uploaded_at].
Proof. reflexivity. Qed.

(** X17.  For a bid that exists, recording a file appends one document row
    for that bid, with the file's name and the URL
    "https://sharepoint.example.com/" followed by that name, and the page
    then lists the bid's earlier documents followed by the new one; the
    documents listed for any other bid are unchanged.  Without a file the
    page only lists.  For a bid that does not exist the page answers "Bid
    not found" and records nothing. *)
Theorem document_manager_records_and_lists :
  forall (db : Store) (t : DocumentsTable) (uploaded_at bid_id : Z)
         (document_name : string),
    (In bid_id (map b_id (bids db)) ->
     exists t',
       document_manager db t uploaded_at bid_id (Some document_name)
       = Done (t', documents_of t bid_id ++
                     [mkDocument (documents_seq t + 1) bid_id document_name
                        (String.append "https://sharepoint.example.com/"
                                       document_name)
                        uploaded_at]) /\
       documents t'
       = documents t ++
           [mkDocument (documents_seq t + 1) bid_id document_name
              (String.append "https://sharepoint.example.com/" document_name)
              uploaded_at] /\
       (forall b, b <> bid_id -> documents_of t' b = documents_of t b) /\
       document_manager db t uploaded_at bid_id None
       = Done (t, documents_of t bid_id)) /\
    (~ In bid_id (map b_id (bids db)) ->
     forall uploaded_file,
       document_manager db t uploaded_at bid_id uploaded_file
       = Rejected NotFoundError).
Proof.
  intros db t uploaded_at bid_id document_name; split.
  - intros Hin; destruct (bid_by_id_exists db bid_id Hin) as [bid [rest Hb]].
    pose proof (upload_to_sharepoint_documents t uploaded_at document_name
                  bid_id) as Hup.
    exists (fst (upload_to_sharepoint t uploaded_at document_name bid_id)).
    unfold document_manager; rewrite Hb.
    split; [|split; [exact Hup | split; [|reflexivity]]].
    + do 2 f_equal; unfold documents_of, sql_select.
      rewrite Hup, filter_app; f_equal.
      cbn [filter d_bid_id]; rewrite Z.eqb_refl; reflexivity.
    + intros b Hne; unfold documents_of, sql_select.
      rewrite Hup, filter_app; cbn [filter d_bid_id].
      destruct (Z.eqb_spec bid_id b); [congruence | apply app_nil_r].
  - intros Hnot uploaded_file; unfold document_manager.
    rewrite (bid_by_id_none db bid_id Hnot); reflexivity.
Qed.

(** ** The users table *)

Lemma username_taken_In (t : UsersTable) (username : string) :
  username_taken t username = true <-> In username (map u_username (users t)).
Proof.
  unfold username_taken; rewrite existsb_exists, in_map_iff; split.
  - intros [u [Hu E]]; apply String.eqb_eq in E; exists u; auto.
  - intros [u [E Hu]]; exists u; split; [exact Hu | apply String.eqb_eq, E].
Qed.

Lemma insert_user_unique (t : UsersTable) (username role : string) :
  usernames_unique t -> username_taken t username = false ->
  usernames_unique (insert_user t username role).
Proof.
  unfold usernames_unique; intros Hnd Hfree; simpl.
  rewrite map_app; simpl; apply NoDup_app; [exact Hnd | |].
  - constructor; [intros [] | constructor].
  - intros a Ha [<-|[]].
    apply username_taken_In in Ha; rewrite Ha in Hfree; discriminate.
Qed.

Lemma insert_default_admin_unique (t : UsersTable) :
  usernames_unique t -> usernames_unique (insert_default_admin t).
Proof.
  intros H; unfold insert_default_admin.
  destruct (users t) as [|u l] eqn:E; simpl; [|exact H].
  apply insert_user_unique; [exact H|].
  unfold username_taken; rewrite E; reflexivity.
Qed.

(** What one run of the script can do to the users table. *)
Lemma main_users (app : App) (session_user : option (string * string * string))
      (r : Request) :
  app_users (main app session_user r) = insert_default_admin (app_users app)
  \/ exists username role,
      r = UserRequest username role /\
      username_taken (insert_default_admin (app_users app)) username = false
      /\ app_users (main app session_user r)
         = insert_user (insert_default_admin (app_users app)) username role.
Proof.
  unfold main, show_main_interface.
  destruct (string_in (request_page r) _); [|left; reflexivity].
  destruct r as [a|uploaded_at bid_id uploaded_file|username role|choice];
    cbn [app_users app_store app_documents]; try (left; reflexivity).
  - destruct (document_manager _ _ _ _ _) as [[t' l]|e]; left; reflexivity.
  - unfold user_admin.
    destruct (negb _); [left; reflexivity|].
    destruct (username_taken _ username) eqn:E; [left; reflexivity|].
    right; exists username, role; auto.
Qed.

(** X18.  Whatever runs follow the creation of the database files, no two
    users ever share a username; and from the first run on there is the
    user "admin" with role "admin" and id 1, which no run removes or
    changes. *)
Theorem usernames_stay_unique :
  forall (runs : list (option (string * string * string) * Request)),
    usernames_unique (app_users (run_app fresh_app runs)) /\
    (runs <> [] ->
     In (mkUser 1 "admin" "admin")
        (users (app_users (run_app fresh_app runs)))).
Proof.
  assert (Hstep : forall app s r,
             usernames_unique (app_users app) ->
             (users (app_users app) = [] /\ users_seq (app_users app) = 0 \/
              In (mkUser 1 "admin" "admin") (users (app_users app))) ->
             usernames_unique (app_users (main app s r)) /\
             In (mkUser 1 "admin" "admin") (users (app_users (main app s r)))).
  { intros app s r Hu Ha.
    assert (H0 : usernames_unique (insert_default_admin (app_users app)) /\
                 In (mkUser 1 "admin" "admin")
                    (users (insert_default_admin (app_users app)))).
    { split; [apply insert_default_admin_unique, Hu|].
      unfold insert_default_admin.
      destruct Ha as [[E Es]|Ha].
      - rewrite E; simpl; unfold insert_user; rewrite E, Es; left; reflexivity.
      - destruct (users (app_users app)) eqn:E; [contradiction|].
        simpl; rewrite E; exact Ha. }
    destruct H0 as [H1 H2].
    destruct (main_users app s r) as [->|[u [role [_ [Hfree ->]]]]].
    - split; assumption.
    - split; [apply insert_user_unique; assumption|].
      simpl; apply in_or_app; left; exact H2. }
  assert (Hrun : forall runs app,
             usernames_unique (app_users app) ->
             In (mkUser 1 "admin" "admin") (users (app_users app)) ->
             usernames_unique (app_users (run_app app runs)) /\
             In (mkUser 1 "admin" "admin")
                (users (app_users (run_app app runs)))).
  { induction runs as [|[s r] runs IH]; intros app Hu Ha; simpl;
      [split; assumption|].
    destruct (Hstep app s r Hu (or_intror Ha)) as [Hu' Ha'].
    apply IH; assumption. }
  intros [|[s r] runs].
  - split; [constructor | intros F; contradiction].
  - simpl.
    destruct (Hstep fresh_app s r (NoDup_nil _) (or_introl (conj eq_refl eq_refl)))
      as [Hu Ha].
    destruct (Hrun runs _ Hu Ha) as [Hu' Ha'].
    split; [exact Hu' | intros _; exact Ha'].
Qed.

(** X19.  A session whose role is not "admin" is offered neither "User
    Admin" nor "Audit Trail", and whatever it asks for, the users table
    comes out of the run as the start-up code left it. *)
Theorem non_admin_cannot_change_users :
  forall (app : App) (user_id user_name user_role : string) (r : Request),
    user_role <> "admin" ->
    ~ In "User Admin" (menu_items user_role) /\
    ~ In "Audit Trail" (menu_items user_role) /\
    app_users (main app (Some (user_id, user_name, user_role)) r)
    = insert_default_admin (app_users app).
Proof.
  intros app user_id user_name user_role r Hrole.
  assert (Hmenu : menu_items user_role
                  = ["Dashboard"; "Bid Status Summary"; "Create Bid";
                     "Document Manager"; "Bid Process"]).
  { unfold menu_items.
    destruct (String.eqb_spec user_role "admin"); [contradiction|].
    reflexivity. }
  rewrite Hmenu; split; [|split].
  - simpl; intros F; repeat (destruct F as [F|F]; [discriminate F|]); exact F.
  - simpl; intros F; repeat (destruct F as [F|F]; [discriminate F|]); exact F.
  - destruct (main_users app (Some (user_id, user_name, user_role)) r)
      as [E|[u [role [-> [_ _]]]]]; [exact E|].
    unfold main, show_main_interface; cbn [snd request_page].
    rewrite Hmenu; reflexivity.
Qed.

Lemma non_admin_cannot_change_users_witness :
  "salesperson" <> "admin" /\
  app_users (main (run_app fresh_app [(None, ViewRequest "Dashboard")])
               (Some ("u7", "sam", "salesperson"))
               (UserRequest "sam" "admin"))
  = mkUsersTable [mkUser 1 "admin" "admin"] 1.
Proof.
  assert (H : "salesperson" <> "admin") by discriminate.
  split; [exact H|].
  exact (proj2 (proj2 (non_admin_cannot_change_users
                         (run_app fresh_app [(None, ViewRequest "Dashboard")])
                         "u7" "sam" "salesperson"
                         (UserRequest "sam" "admin") H))).
Defined.

(** X20.  No run removes a user or changes a user's name or role: the rows
    of the users table found before a sequence of runs are still its first
    rows afterwards. *)
Theorem user_rows_never_change :
  forall (runs : list (option (string * string * string) * Request))
         (app : App),
  exists added,
    users (app_users (run_app app runs)) = users (app_users app) ++ added.
Proof.
  induction runs as [|[s r] runs IH]; intros app; simpl.
  - exists []; symmetry; apply app_nil_r.
  - destruct (IH (main app s r)) as [added E].
    assert (H0 : exists a0, users (insert_default_admin (app_users app))
                            = users (app_users app) ++ a0).
    { unfold insert_default_admin.
      destruct (Nat.eqb _ 0); [eexists; reflexivity|].
      exists []; symmetry; apply app_nil_r. }
    destruct H0 as [a0 E0].
    destruct (main_users app s r) as [Em|[u [role [_ [_ Em]]]]];
      rewrite E, Em; simpl; rewrite ?E0, <- ?app_assoc; eexists; reflexivity.
Qed.

(** X21.  In the default session, which [main] makes an admin, "Add User"
    with a username that is taken leaves the users table as the start-up
    code left it, the earlier user keeping its role; with a free username
    it appends one user with that name and role under the next id. *)
Theorem add_user_once_per_username :
  forall (app : App) (username role : string),
    (In username
        (map u_username (users (insert_default_admin (app_users app)))) ->
     app_users (main app None (UserRequest username role))
     = insert_default_admin (app_users app)) /\
    (~ In username
         (map u_username (users (insert_default_admin (app_users app)))) ->
     users (app_users (main app None (UserRequest username role)))
     = users (insert_default_admin (app_users app)) ++
         [mkUser (users_seq (insert_default_admin (app_users app)) + 1)
                 username role]).
Proof.
  intros app username role.
  unfold main, show_main_interface; cbn [snd request_page].
  change (string_in "User Admin" (menu_items "admin")) with true.
  cbn [app_users]; unfold user_admin; cbn [negb String.eqb].
  change (negb ("admin" =? "admin")%string) with false.
  cbn iota; split; intros H.
  - apply username_taken_In in H; rewrite H; reflexivity.
  - destruct (username_taken _ username) eqn:E;
      [apply username_taken_In in E; contradiction | reflexivity].
Qed.

(** ** Documents and the bids they belong to *)

Lemma step_keeps_bid_ids (db : Store) (a : Action) (k : Z) :
  In k (map b_id (bids db)) -> In k (map b_id (bids (step db a))).
Proof.
  intros Hk; unfold step.
  destruct (perform db a) as [db'|e] eqn:E; [|exact Hk].
  perform_cases E; simpl; rewrite ?sql_update_bid_ids by reflexivity;
    try exact Hk.
  rewrite map_app; apply in_or_app; left; exact Hk.
Qed.

Lemma main_keeps_document_refs (app : App)
      (session_user : option (string * string * string)) (r : Request) :
  documents_reference_bids app ->
  documents_reference_bids (main app session_user r).
Proof.
  unfold documents_reference_bids, main, show_main_interface; intros H.
  destruct (string_in (request_page r) _); [|exact H].
  destruct r as [a|uploaded_at bid_id uploaded_file|username role|choice];
    cbn [app_users app_store app_documents]; try exact H.
  - eapply Forall_impl; [|exact H]; simpl.
    intros d Hd; apply step_keeps_bid_ids, Hd.
  - unfold document_manager.
    destruct (bid_by_id (app_store app) bid_id) as [|bid rest] eqn:Eb;
      [exact H|].
    apply bid_by_id_In in Eb; destruct Eb as [Hb Eid].
    cbn [app_store app_documents].
    destruct uploaded_file as [document_name|]; [|exact H].
    rewrite upload_to_sharepoint_documents.
    apply Forall_app; split; [exact H|].
    constructor; [|constructor]; simpl.
    rewrite <- Eid; apply in_map, Hb.
  - destruct (user_admin _ _ _ _); exact H.
Qed.

(** X22.  Whatever runs follow the creation of the database files, every
    document row belongs to a bid that is in the bids table: a document is
    only recorded for an existing bid, and bids are never removed. *)
Theorem documents_always_reference_bids :
  forall (runs : list (option (string * string * string) * Request)),
    Forall (fun d =>
              In (d_bid_id d)
                 (map b_id (bids (app_store (run_app fresh_app runs)))))
           (documents (app_documents (run_app fresh_app runs))).
Proof.
  intros runs.
  change (documents_reference_bids (run_app fresh_app runs)).
  assert (H : documents_reference_bids fresh_app) by constructor.
  revert H; generalize fresh_app.
  induction runs as [|[s r] runs IH]; intros app H; simpl; [exact H|].
  apply IH, main_keeps_document_refs, H.
Qed.

Example documents_after_two_uploads :
  map (fun d => (d_id d, d_bid_id d, d_sharepoint_url d))
      (documents
         (app_documents
            (run_app fresh_app
               [(None,
                 BidRequest (CreateBid (session_at 100) "Acme Deal" ""
                                       "Acme Corp" no_value 10 "Jane"));
                (None, DocumentRequest 200 1 (Some "offer.pdf"));
                (None, DocumentRequest 300 2 (Some "lost.pdf"));
                (None, DocumentRequest 400 1 (Some "offer.pdf"))])))
  = [(1, 1, "https://sharepoint.example.com/offer.pdf");
     (2, 1, "https://sharepoint.example.com/offer.pdf")].
Proof. reflexivity. Qed.

(** ** The dashboard and its metrics *)

Lemma count_excluded (p q : Bid -> bool) (l : list Bid) :
  (forall b, p b = true -> q b = false) ->
  List.length (filter q (filter p l)) = 0%nat.
Proof.
  intros H; rewrite filter_filter, filter_none; [reflexivity|].
  intros b _; destruct (p b) eqn:E; [rewrite (H b E)|]; reflexivity.
Qed.

Lemma count_le {A : Type} (p q : A -> bool) (l : list A) :
  (forall x, p x = true -> q x = true) ->
  (List.length (filter p l) <= List.length (filter q l))%nat.
Proof.
  intros H; induction l as [|x l IH]; simpl; [lia|].
  destruct (p x) eqn:E; [rewrite (H x E); simpl; lia|].
  destruct (q x); simpl; lia.
Qed.

Lemma count_disjoint {A : Type} (p q : A -> bool) (l : list A) :
  (forall x, p x = true -> q x = false) ->
  (List.length (filter p l) + List.length (filter q l)
   <= List.length l)%nat.
Proof.
  intros H; induction l as [|x l IH]; simpl; [lia|].
  destruct (p x) eqn:E; [rewrite (H x E); simpl; lia|].
  destruct (q x); simpl; lia.
Qed.

(** X23.  Whatever LIKE does, the dashboard lists bids of the table only,
    all of them when no filter is filled in, and with a status filter only
    bids of the chosen statuses; its metrics are counted on the listed bids:
    won bids are at most the decided ones, active and decided ones together
    at most the listed ones, a status filter without "Open" makes "Active
    Bids" zero, and one without "Won" and "Lost" leaves no decided bid, so
    that the win rate is shown as zero rather than divided. *)
Theorem dashboard_metrics_follow_filters :
  forall (sql_like : string -> string -> bool) (db : Store)
         (status_filter : list string) (assigned_filter : string),
    show_dashboard sql_like db [] "" = bids db /\
    (forall b,
        In b (show_dashboard sql_like db status_filter assigned_filter) ->
        In b (bids db) /\
        (status_filter = [] \/ In (b_status b) status_filter)) /\
    (won_bids (show_dashboard sql_like db status_filter assigned_filter)
     <= total_outcomes
          (show_dashboard sql_like db status_filter assigned_filter))%nat /\
    (active_count (show_dashboard sql_like db status_filter assigned_filter)
     + total_outcomes
         (show_dashboard sql_like db status_filter assigned_filter)
     <= List.length
          (show_dashboard sql_like db status_filter assigned_filter))%nat /\
    (status_filter <> [] -> ~ In "Open" status_filter ->
     active_count (show_dashboard sql_like db status_filter assigned_filter)
     = 0%nat) /\
    (status_filter <> [] -> ~ In "Won" status_filter ->
     ~ In "Lost" status_filter ->
     total_outcomes (show_dashboard sql_like db status_filter assigned_filter)
     = 0%nat).
Proof.
  intros sql_like db status_filter assigned_filter.
  assert (Hin : forall b,
             dashboard_where sql_like status_filter assigned_filter b = true ->
             status_filter = [] \/ In (b_status b) status_filter).
  { intros b H; unfold dashboard_where in H.
    apply andb_true_iff in H; destruct H as [H _].
    destruct status_filter as [|s l]; [left; reflexivity|].
    right; apply string_in_In, H. }
  split; [|split; [|split; [|split; [|split]]]].
  - unfold show_dashboard, sql_select; simpl.
    induction (bids db) as [|b l IH]; simpl; [reflexivity|].
    f_equal; exact IH.
  - intros b Hb; unfold show_dashboard, sql_select in Hb.
    apply filter_In in Hb; destruct Hb as [Hb Hw].
    split; [exact Hb | apply Hin, Hw].
  - unfold won_bids, total_outcomes; apply count_le.
    intros b E; apply String.eqb_eq in E; rewrite E; reflexivity.
  - unfold active_count, total_outcomes; apply count_disjoint.
    intros b E; apply String.eqb_eq in E; rewrite E; reflexivity.
  - intros Hne Hopen; unfold active_count, show_dashboard, sql_select.
    apply count_excluded; intros b Hw.
    apply String.eqb_neq; intros E.
    destruct (Hin b Hw) as [F|F]; [contradiction|].
    rewrite E in F; contradiction.
  - intros Hne Hwon Hlost; unfold total_outcomes, show_dashboard, sql_select.
    apply count_excluded; intros b Hw.
    destruct (string_in (b_status b) ["Won"; "Lost"]) eqn:E; [|reflexivity].
    apply string_in_In in E.
    destruct (Hin b Hw) as [F|F]; [contradiction|].
    destruct E as [E|[E|[]]]; rewrite <- E in F; contradiction.
Qed.
